(** * RACK loss detection: net/ipv4/tcp_recovery.c

    A shallow embedding of the four functions of the file and the
    properties of the time-domain loss detector they implement:
    [tcp_rack_advance] (lines 103-131), the scanning
    [tcp_rack_mark_lost] (lines 22-79), the timer-arming
    [tcp_rack_mark_lost] (lines 81-97) and [tcp_rack_reo_timeout]
    (lines 136-155). *)

From Stdlib Require Import ZArith List Bool Lia.
Import ListNotations.
Local Open Scope Z_scope.

(** ** Machine integers *)

(** [~0U], the all-ones 32-bit word; [tcp_min_rtt] holds it while no
    round-trip sample exists (line 43). *)
Definition U32_MAX : Z := 2 ^ 32 - 1.

(** Arithmetic on [u32] wraps around. *)
Definition u32 (x : Z) : Z := x mod 2 ^ 32.

(** Conversion of a [u32] to [int], as at the [return] of line 78. *)
Definition int_of_u32 (x : Z) : Z := if x <? 2 ^ 31 then x else x - 2 ^ 32.

(** ** Data model *)

(** The fields of [struct sk_buff] and of its control block
    [TCP_SKB_CB(skb)] that the file reads or writes.  [sacked] is the
    [__u8] flag byte, [skb_mstamp] the 64-bit send stamp (microseconds). *)
Record sk_buff : Type := mk_skb {
  end_seq : Z;
  sacked : Z;
  skb_mstamp : Z;
  tcp_skb_pcount : Z
}.

Definition set_sacked (skb : sk_buff) (v : Z) : sk_buff :=
  mk_skb (end_seq skb) v (skb_mstamp skb) (tcp_skb_pcount skb).

(** [tp->rack]: [mstamp] is the send time of the most recently sent
    segment known delivered, [mstamp = 0] meaning "not set" (the test
    [tp->rack.mstamp.v64] of line 106); [advanced] and [reord] are
    one-bit fields. *)
Record tcp_rack : Type := mk_rack {
  rack_mstamp : Z;
  rack_rtt_us : Z;
  rack_end_seq : Z;
  rack_advanced : bool;
  rack_reord : bool
}.

(** [struct tcp_sock].  [tcp_min_rtt] is the value the accessor
    [tcp_min_rtt(tp)] returns, [U32_MAX] while unknown. *)
Record tcp_sock : Type := mk_tp {
  rack : tcp_rack;
  snd_una : Z;
  retrans_out : Z;
  tcp_min_rtt : Z
}.

Definition set_rack (tp : tcp_sock) (r : tcp_rack) : tcp_sock :=
  mk_tp r (snd_una tp) (retrans_out tp) (tcp_min_rtt tp).

Definition set_retrans_out (tp : tcp_sock) (v : Z) : tcp_sock :=
  mk_tp (rack tp) (snd_una tp) v (tcp_min_rtt tp).

Definition clear_advanced (tp : tcp_sock) : tcp_sock :=
  set_rack tp (mk_rack (rack_mstamp (rack tp)) (rack_rtt_us (rack tp))
                       (rack_end_seq (rack tp)) false (rack_reord (rack tp))).

(** [struct sock] with its connection block.  The write queue is the
    list walked by [tcp_for_write_queue]; [sk_send_head] is the position
    in it of the first segment not yet transmitted ([None] for a NULL
    send head).  [cong_control] tells whether
    [icsk_ca_ops->cong_control] is set.  [mib_lostretransmit] is the
    [LINUX_MIB_TCPLOSTRETRANSMIT] counter. *)
Record sock : Type := mk_sock {
  tcp_sk : tcp_sock;
  icsk_ca_state : Z;
  icsk_pending : Z;
  icsk_rto : Z;
  cong_control : bool;
  sk_write_queue : list sk_buff;
  sk_send_head : option nat;
  mib_lostretransmit : Z
}.

Definition set_tcp_sk (sk : sock) (tp : tcp_sock) : sock :=
  mk_sock tp (icsk_ca_state sk) (icsk_pending sk) (icsk_rto sk)
          (cong_control sk) (sk_write_queue sk) (sk_send_head sk)
          (mib_lostretransmit sk).

Definition set_write_queue (sk : sock) (q : list sk_buff) : sock :=
  mk_sock (tcp_sk sk) (icsk_ca_state sk) (icsk_pending sk) (icsk_rto sk)
          (cong_control sk) q (sk_send_head sk) (mib_lostretransmit sk).

(** ** Helpers declared in headers *)

(** Modelled from the spec: [skb_mstamp_after] is declared in
    include/linux/skbuff.h, outside src/.  The spec reads
    [skb_mstamp_after(t1, t0)] as "t0 is strictly before t1". *)
Definition skb_mstamp_after (t1 t0 : Z) : bool := t0 <? t1.

(** Modelled from the spec: [skb_mstamp_us_delta] is declared in
    include/linux/skbuff.h, outside src/.  The spec reads it as the
    elapsed time, [elapsed = reference_time - sent_time]. *)
Definition skb_mstamp_us_delta (t1 t0 : Z) : Z := t1 - t0.

(** Modelled from the spec: [after] is declared in include/net/tcp.h,
    outside src/.  [!after(end_seq, snd_una)] holds of a segment "lying
    entirely behind the connection's acknowledged floor"; sequence
    numbers are 32-bit and compared modulo 2^32. *)
Definition after (seq2 seq1 : Z) : bool :=
  int_of_u32 (u32 (seq1 - seq2)) <? 0.

(** ** Calls into the collaborators

    [tcp_rack_mark_lost] (lines 81-97) and [tcp_rack_reo_timeout] call
    functions of the timer, congestion-control and transmission code.
    Each call is recorded as a request, in program order, and acts on the
    socket as the collaborator does. *)
Inductive request : Type :=
| inet_csk_reset_xmit_timer (what when max_when : Z)
| tcp_enter_recovery (ece_ack : bool)
| tcp_cwnd_reduction (newly_acked_sacked fast_rexmit : Z)
| tcp_xmit_retransmit_queue
| tcp_rearm_rto.

(** The state threaded through a driver: the socket and the requests
    made so far (most recent last). *)
Definition world : Type := (sock * list request)%type.

Definition act (A : Type) : Type := world -> A * world.

Definition ret {A : Type} (x : A) : act A := fun w => (x, w).

Definition bind {A B : Type} (m : act A) (k : A -> act B) : act B :=
  fun w => let (x, w1) := m w in k x w1.

Definition gets {A : Type} (f : sock -> A) : act A :=
  fun w => (f (fst w), w).

Definition modify (f : sock -> sock) : act unit :=
  fun w => (tt, (f (fst w), snd w)).

Notation "x <- m ;; k" := (bind m (fun x => k))
  (at level 61, m at next level, right associativity).
Notation "m ;;; k" := (bind m (fun _ => k))
  (at level 61, right associativity).

(** The values the kernel headers of this tree give to the macros that
    the development takes as parameters; they instantiate the theorems
    on concrete connections. *)
Module Linux.
Definition TCPCB_SACKED_ACKED : Z := 1.
Definition TCPCB_SACKED_RETRANS : Z := 2.
Definition TCPCB_LOST : Z := 4.
Definition TCPCB_RETRANS : Z := 146.
Definition TCP_CA_Recovery : Z := 3.
Definition ICSK_TIME_RETRANS : Z := 1.
Definition ICSK_TIME_REO_TIMEOUT : Z := 5.
Definition TCP_REO_TIMEOUT_MIN : Z := 2000.
Definition HZ : Z := 100.
Definition usecs_to_jiffies (u : Z) : Z :=
  (u + (1000000 / HZ) - 1) / (1000000 / HZ).
End Linux.

(** A connection in recovery used to instantiate the theorems.  The
    reference time is 15000 and [tcp_min_rtt] is unknown, so the reorder
    window is 1000.  The queue holds a retransmission sent at 0, an
    original sent at 14500, a retransmission sent at 25000, an original
    sent at 20000 and, at the send head, a segment not yet sent. *)
Module Example.
Definition old_retrans : sk_buff := mk_skb 100 2 0 1.
Definition recent : sk_buff := mk_skb 200 0 14500 1.
Definition late_retrans : sk_buff := mk_skb 300 2 25000 1.
Definition late_orig : sk_buff := mk_skb 400 0 20000 1.
Definition unsent : sk_buff := mk_skb 500 0 0 1.
Definition tp0 : tcp_sock :=
  mk_tp (mk_rack 15000 0 1000 true false) 0 2 U32_MAX.
Definition sent : list sk_buff :=
  [old_retrans; recent; late_retrans; late_orig].
Definition sk0 : sock :=
  mk_sock tp0 3 0 200 false (sent ++ [unsent]) (Some 4%nat) 0.

(** The same connection before recovery, and one on a path where
    reordering was seen and [tcp_min_rtt] is 40000. *)
Definition sk_disorder : sock :=
  mk_sock tp0 1 0 200 false (sent ++ [unsent]) (Some 4%nat) 0.
Definition sk_reord : sock :=
  mk_sock (mk_tp (mk_rack 15000 0 1000 true true) 0 2 40000)
          3 0 200 false (sent ++ [unsent]) (Some 4%nat) 0.

(** The collaborators as far as the drivers can tell: arming a timer
    sets the pending kind, entering recovery sets the state. *)
Definition collaborator (r : request) (sk : sock) : sock :=
  match r with
  | inet_csk_reset_xmit_timer what _ _ =>
      mk_sock (tcp_sk sk) (icsk_ca_state sk) what (icsk_rto sk)
              (cong_control sk) (sk_write_queue sk) (sk_send_head sk)
              (mib_lostretransmit sk)
  | tcp_enter_recovery _ =>
      mk_sock (tcp_sk sk) Linux.TCP_CA_Recovery (icsk_pending sk)
              (icsk_rto sk) (cong_control sk) (sk_write_queue sk)
              (sk_send_head sk) (mib_lostretransmit sk)
  | tcp_rearm_rto =>
      mk_sock (tcp_sk sk) (icsk_ca_state sk) Linux.ICSK_TIME_RETRANS
              (icsk_rto sk) (cong_control sk) (sk_write_queue sk)
              (sk_send_head sk) (mib_lostretransmit sk)
  | _ => sk
  end.

(** With the other counters fixed, the in-flight count moves with
    [retrans_out]. *)
Definition tcp_packets_in_flight (tp : tcp_sock) : Z := 4 + retrans_out tp.

(** The [u32] a detection step stores for a timeout. *)
Definition stored (next_timeout : option Z) : Z :=
  match next_timeout with
  | Some t => t
  | None => 0
  end.
End Example.

Section Rack.

(** The flag masks of [TCP_SKB_CB(skb)->sacked], declared in
    include/net/tcp.h. *)
Variables TCPCB_SACKED_ACKED TCPCB_SACKED_RETRANS TCPCB_LOST TCPCB_RETRANS : Z.

(** ** tcp_rack_advance (lines 103-131) *)

(** [now] is the clock value read by [skb_mstamp_get] at line 123.
    [rtt_us] is read at line 127 without being declared in the
    function; it is taken as one more input. *)
Definition tcp_rack_advance (tp : tcp_sock) (sacked end_seq xmit_time : Z)
    (now rtt_us : Z) : tcp_sock :=
  if negb (rack_mstamp (rack tp) =? 0)
     && negb (skb_mstamp_after xmit_time (rack_mstamp (rack tp)))
  then tp
  else if negb (Z.land sacked TCPCB_RETRANS =? 0)
          && (skb_mstamp_us_delta now xmit_time <? tcp_min_rtt tp)
  then tp
  else set_rack tp (mk_rack xmit_time rtt_us end_seq true
                            (rack_reord (rack tp))).

(** One [tcp_rack_advance] call of an acknowledgment batch. *)
Record advance_call : Type := mk_call {
  ac_sacked : Z;
  ac_end_seq : Z;
  ac_xmit_time : Z;
  ac_now : Z;
  ac_rtt_us : Z
}.

Definition advance_calls (tp : tcp_sock) (cs : list advance_call) : tcp_sock :=
  fold_left
    (fun tp c => tcp_rack_advance tp (ac_sacked c) (ac_end_seq c)
                   (ac_xmit_time c) (ac_now c) (ac_rtt_us c))
    cs tp.

(** ** The loss scan, tcp_rack_mark_lost (lines 22-79) *)

(** Modelled from the spec: [tcp_skb_mark_lost_uncond_verify] is defined
    in net/ipv4/tcp_input.c, outside src/.  The spec has it "mark the
    segment lost = true (idempotent if already lost)"; its bookkeeping on
    [tp] is not described and is left out. *)
Definition tcp_skb_mark_lost_uncond_verify (tp : tcp_sock) (skb : sk_buff)
    : sk_buff :=
  set_sacked skb (Z.lor (sacked skb) TCPCB_LOST).

(** Lines 42-44: the settling delay allowed for reordering. *)
Definition rack_reo_wnd (tp : tcp_sock) : Z :=
  if rack_reord (rack tp) && negb (tcp_min_rtt tp =? U32_MAX)
  then Z.max (Z.shiftr (tcp_min_rtt tp) 2) 1000
  else 1000.

(** [skb == tcp_send_head(sk)] for the segment at position [i]. *)
Definition at_send_head (head : option nat) (i : nat) : bool :=
  match head with
  | Some h => Nat.eqb i h
  | None => false
  end.

(** [tcp_for_write_queue(skb, sk) { if (skb == tcp_send_head(sk)) break;
    body }]: the walk over the write queue from position [i], threading
    the loop-carried state [a].  A body returns [None] for [break] and
    the updated state and segment to go on ([continue] or the end of the
    body). *)
Fixpoint tcp_for_write_queue {A : Type}
    (body : A -> sk_buff -> option (A * sk_buff))
    (head : option nat) (i : nat) (q : list sk_buff) (a : A)
    : list sk_buff * A :=
  match q with
  | [] => ([], a)
  | skb :: rest =>
      if at_send_head head i then (q, a)
      else match body a skb with
           | None => (q, a)
           | Some (a1, skb1) =>
               let (rest1, a2) :=
                 tcp_for_write_queue body head (S i) rest a1 in
               (skb1 :: rest1, a2)
           end
  end.

(** The number of segments the walk passes before it leaves the loop at
    the send head, at the segment on which the body breaks, or at the
    end of the queue. *)
Fixpoint walk_passed {A : Type}
    (body : A -> sk_buff -> option (A * sk_buff))
    (head : option nat) (i : nat) (q : list sk_buff) (a : A) : nat :=
  match q with
  | [] => O
  | skb :: rest =>
      if at_send_head head i then O
      else match body a skb with
           | None => O
           | Some (a1, _) => S (walk_passed body head (S i) rest a1)
           end
  end.

(** Lines 53-54: the segment is already (s)acked. *)
Definition skb_acked (tp : tcp_sock) (skb : sk_buff) : bool :=
  negb (after (end_seq skb) (snd_una tp))
  || negb (Z.land (sacked skb) TCPCB_SACKED_ACKED =? 0).

(** Lines 53-76, the body of the loop on one segment.  The loop carries
    [tp] (for [retrans_out]) and the [LINUX_MIB_TCPLOSTRETRANSMIT]
    counter. *)
Definition mark_lost_skb (reo_wnd : Z) (st : tcp_sock * Z) (skb : sk_buff)
    : option ((tcp_sock * Z) * sk_buff) :=
  let (tp, mib) := st in
  if skb_acked tp skb then Some (st, skb)
  else if skb_mstamp_after (rack_mstamp (rack tp)) (skb_mstamp skb) then
    if skb_mstamp_us_delta (rack_mstamp (rack tp)) (skb_mstamp skb)
       <=? reo_wnd
    then Some (st, skb)
    else
      let skb1 := tcp_skb_mark_lost_uncond_verify tp skb in
      if negb (Z.land (sacked skb1) TCPCB_SACKED_RETRANS =? 0) then
        Some ((set_retrans_out tp
                 (u32 (retrans_out tp - tcp_skb_pcount skb1)),
               mib + 1),
              set_sacked skb1
                (Z.land (sacked skb1) (Z.lnot TCPCB_SACKED_RETRANS)))
      else Some (st, skb1)
  else if Z.land (sacked skb) TCPCB_RETRANS =? 0 then None
  else Some (st, skb).

(** What the loop does next when it is about to evaluate [skb]: it
    leaves, or it goes on with the rest of the queue. *)
Definition scan_leaves (reo_wnd : Z) (head : option nat) (i : nat)
    (skb : sk_buff) (rest : list sk_buff) (tp : tcp_sock) (mib : Z) : Prop :=
  tcp_for_write_queue (mark_lost_skb reo_wnd) head i (skb :: rest) (tp, mib)
  = (skb :: rest, (tp, mib)).

Definition scan_goes_on (reo_wnd : Z) (head : option nat) (i : nat)
    (skb : sk_buff) (rest : list sk_buff) (tp : tcp_sock) (mib : Z)
    (skb1 : sk_buff) (tp1 : tcp_sock) (mib1 : Z) : Prop :=
  tcp_for_write_queue (mark_lost_skb reo_wnd) head i (skb :: rest) (tp, mib)
  = (skb1 :: fst (tcp_for_write_queue (mark_lost_skb reo_wnd) head (S i)
                    rest (tp1, mib1)),
     snd (tcp_for_write_queue (mark_lost_skb reo_wnd) head (S i) rest
            (tp1, mib1))).

(** The segment as the scan leaves it once it is judged lost, lines
    64-67. *)
Definition lost_skb (tp : tcp_sock) (skb : sk_buff) : sk_buff :=
  let skb1 := tcp_skb_mark_lost_uncond_verify tp skb in
  if Z.land (sacked skb1) TCPCB_SACKED_RETRANS =? 0 then skb1
  else set_sacked skb1 (Z.land (sacked skb1) (Z.lnot TCPCB_SACKED_RETRANS)).

Variable TCP_CA_Recovery : Z.

(** The function of lines 22-79; it returns the socket after the call
    and the [int] result. *)
Definition tcp_rack_mark_lost (sk : sock) : sock * Z :=
  let tp := tcp_sk sk in
  let prior_retrans := retrans_out tp in
  if (icsk_ca_state sk <? TCP_CA_Recovery) || negb (rack_advanced (rack tp))
  then (sk, 0)
  else
    let tp1 := clear_advanced tp in
    let reo_wnd := rack_reo_wnd tp1 in
    let '(q, (tp2, mib)) :=
      tcp_for_write_queue (mark_lost_skb reo_wnd) (sk_send_head sk) 0
        (sk_write_queue sk) (tp1, mib_lostretransmit sk) in
    (mk_sock tp2 (icsk_ca_state sk) (icsk_pending sk) (icsk_rto sk)
             (cong_control sk) q (sk_send_head sk) mib,
     int_of_u32 (u32 (prior_retrans - retrans_out tp2))).

(** ** The verdicts of the loop body, lines 53-76 *)

(** The segment is judged lost: not (s)acked, sent strictly before the
    reference time, and more than [reo_wnd] before it (lines 53-61). *)
Definition expired (reo_wnd : Z) (tp : tcp_sock) (skb : sk_buff) : bool :=
  negb (skb_acked tp skb)
  && skb_mstamp_after (rack_mstamp (rack tp)) (skb_mstamp skb)
  && negb (skb_mstamp_us_delta (rack_mstamp (rack tp)) (skb_mstamp skb)
           <=? reo_wnd).

(** The segment is judged lost and its retransmission void (line 65). *)
Definition void_retrans (reo_wnd : Z) (tp : tcp_sock) (skb : sk_buff) : bool :=
  expired reo_wnd tp skb
  && negb (Z.land (sacked (tcp_skb_mark_lost_uncond_verify tp skb))
                  TCPCB_SACKED_RETRANS =? 0).

(** The segment makes the loop break at line 75. *)
Definition late_original (tp : tcp_sock) (skb : sk_buff) : bool :=
  negb (skb_acked tp skb)
  && negb (skb_mstamp_after (rack_mstamp (rack tp)) (skb_mstamp skb))
  && (Z.land (sacked skb) TCPCB_RETRANS =? 0).

(** The segments a call of [tcp_rack_mark_lost] passes once it is past
    its guard. *)
Definition mark_lost_passed (sk : sock) : list sk_buff :=
  firstn (walk_passed (mark_lost_skb (rack_reo_wnd (tcp_sk sk)))
            (sk_send_head sk) 0 (sk_write_queue sk)
            (clear_advanced (tcp_sk sk), mib_lostretransmit sk))
         (sk_write_queue sk).

(** The packets of a list of segments. *)
Definition pcount_sum (l : list sk_buff) : Z :=
  fold_right (fun skb n => tcp_skb_pcount skb + n) 0 l.

(** [tp->rack.advanced = 1], as line 130 leaves it. *)
Definition set_advanced (tp : tcp_sock) : tcp_sock :=
  set_rack tp (mk_rack (rack_mstamp (rack tp)) (rack_rtt_us (rack tp))
                       (rack_end_seq (rack tp)) true (rack_reord (rack tp))).

(** The segment carries the retransmitted flag, and the packets of the
    segments of a queue that do: what [retrans_out] is meant to count. *)
Definition retrans_flagged (skb : sk_buff) : bool :=
  negb (Z.land (sacked skb) TCPCB_SACKED_RETRANS =? 0).

Definition retrans_packets (q : list sk_buff) : Z :=
  pcount_sum (filter retrans_flagged q).

(** What a call of [tcp_rack_advance] records when it accepts. *)
Definition recorded (r : tcp_rack) : Z * Z * Z :=
  (rack_mstamp r, rack_end_seq r, rack_rtt_us r).

(** The fields of a segment the scan has no business with. *)
Definition skb_fixed (skb : sk_buff) : Z * Z * Z :=
  (end_seq skb, skb_mstamp skb, tcp_skb_pcount skb).

(** ** The detection step called by the drivers *)

(** The least [remaining] seen so far, with one more. *)
Definition track_min (next_timeout : option Z) (remaining : Z) : option Z :=
  Some (match next_timeout with
        | None => remaining
        | Some t => Z.min t remaining
        end).

(** Modelled from the spec: [tcp_rack_detect_loss], called at lines 91
    and 144, is defined outside src/.  This is one segment of steps 3-4
    of the spec's LossDetector: a segment sent strictly before the
    reference time with [elapsed <= reo_wnd] is left alone and
    [remaining = reo_wnd - elapsed] is tracked as a minimum; with
    [elapsed > reo_wnd] it is marked lost and a retransmission is
    declared void; a segment sent at or after the reference time stops
    the scan when it is an original and is passed over otherwise. *)
Definition detect_loss_skb (reo_wnd : Z) (st : tcp_sock * Z * option Z)
    (skb : sk_buff) : option ((tcp_sock * Z * option Z) * sk_buff) :=
  let '(tp, mib, next_timeout) := st in
  if skb_acked tp skb then Some (st, skb)
  else if skb_mstamp_after (rack_mstamp (rack tp)) (skb_mstamp skb) then
    let elapsed :=
      skb_mstamp_us_delta (rack_mstamp (rack tp)) (skb_mstamp skb) in
    if elapsed <=? reo_wnd then
      let remaining := reo_wnd - elapsed in
      Some ((tp, mib, track_min next_timeout remaining), skb)
    else
      let skb1 := tcp_skb_mark_lost_uncond_verify tp skb in
      if negb (Z.land (sacked skb1) TCPCB_SACKED_RETRANS =? 0) then
        Some ((set_retrans_out tp
                 (u32 (retrans_out tp - tcp_skb_pcount skb1)),
               mib + 1, next_timeout),
              set_sacked skb1
                (Z.land (sacked skb1) (Z.lnot TCPCB_SACKED_RETRANS)))
      else Some (st, skb1)
  else if Z.land (sacked skb) TCPCB_RETRANS =? 0 then None
  else Some (st, skb).

(** Modelled from the spec: [tcp_rack_detect_loss] is defined outside
    src/.  Steps 2-5 of the spec's LossDetector over the transmitted part
    of the write queue: the reorder window, the ordered scan, and the
    minimum [remaining] as [next_timeout] ([None] if no segment was left
    inconclusive).  Step 1 and the dirty test are the caller's, lines
    86-90. *)
Definition rack_detect_loss (sk : sock) : sock * option Z :=
  let reo_wnd := rack_reo_wnd (tcp_sk sk) in
  let '(q, (tp, mib, next_timeout)) :=
    tcp_for_write_queue (detect_loss_skb reo_wnd) (sk_send_head sk) 0
      (sk_write_queue sk) (tcp_sk sk, mib_lostretransmit sk, None) in
  (mk_sock tp (icsk_ca_state sk) (icsk_pending sk) (icsk_rto sk)
           (cong_control sk) q (sk_send_head sk) mib,
   next_timeout).

(** The segments the spec's step 4 leaves inconclusive. *)
Definition inconclusive (reo_wnd : Z) (tp : tcp_sock) (skb : sk_buff) : bool :=
  negb (skb_acked tp skb)
  && skb_mstamp_after (rack_mstamp (rack tp)) (skb_mstamp skb)
  && (skb_mstamp_us_delta (rack_mstamp (rack tp)) (skb_mstamp skb)
      <=? reo_wnd).

(** The segments [rack_detect_loss] passes before it leaves its loop,
    and those among them it leaves inconclusive. *)
Definition detect_passed (sk : sock) : list sk_buff :=
  firstn (walk_passed (detect_loss_skb (rack_reo_wnd (tcp_sk sk)))
            (sk_send_head sk) 0 (sk_write_queue sk)
            (tcp_sk sk, mib_lostretransmit sk, None))
         (sk_write_queue sk).

Definition detect_inconclusive (sk : sock) : list sk_buff :=
  filter (inconclusive (rack_reo_wnd (tcp_sk sk)) (tcp_sk sk))
         (detect_passed sk).

(** [remaining = reo_wnd - elapsed] of a segment. *)
Definition remaining (reo_wnd : Z) (tp : tcp_sock) (skb : sk_buff) : Z :=
  reo_wnd - skb_mstamp_us_delta (rack_mstamp (rack tp)) (skb_mstamp skb).

(** ** The drivers: lines 81-97 and 136-155 *)

(** Timer kinds, the floor of the re-check delay and the tick
    conversion, declared in headers outside src/. *)
Variables ICSK_TIME_RETRANS ICSK_TIME_REO_TIMEOUT TCP_REO_TIMEOUT_MIN : Z.
Variable usecs_to_jiffies : Z -> Z.

(** [tcp_rack_detect_loss] is called but not defined in the file: the
    drivers are stated for any implementation.  It returns the socket it
    leaves and the [u32] it stores through its last argument.  The time
    argument is [Some now] at line 91 and absent at line 144. *)
Variable tcp_rack_detect_loss : sock -> option Z -> sock * Z.

(** [tcp_packets_in_flight(tp)], declared in include/net/tcp.h. *)
Variable tcp_packets_in_flight : tcp_sock -> Z.

(** What each collaborator does to the socket. *)
Variable collaborator : request -> sock -> sock.

Definition call (r : request) : act unit :=
  fun w => (tt, (collaborator r (fst w), snd w ++ [r])).

Definition detect_loss (now : option Z) : act Z :=
  fun w => let (sk1, timeout) := tcp_rack_detect_loss (fst w) now in
           (timeout, (sk1, snd w)).

(** The socket after a list of requests has been served. *)
Definition serve (rs : list request) (sk : sock) : sock :=
  fold_left (fun sk r => collaborator r sk) rs sk.

(** The function of lines 81-97, [tcp_rack_mark_lost(sk, now)]. *)
Definition tcp_rack_mark_lost_at (now : Z) : act unit :=
  advanced <- gets (fun sk => rack_advanced (rack (tcp_sk sk))) ;;
  if negb advanced then ret tt
  else
    modify (fun sk => set_tcp_sk sk (clear_advanced (tcp_sk sk))) ;;;
    timeout <- detect_loss (Some now) ;;
    if negb (timeout =? 0) then
      rto <- gets icsk_rto ;;
      call (inet_csk_reset_xmit_timer ICSK_TIME_REO_TIMEOUT
              (u32 (usecs_to_jiffies (u32 (timeout + TCP_REO_TIMEOUT_MIN))))
              rto)
    else ret tt.

(** The function of lines 136-155.  The clock value read at line 142 is
    not used. *)
Definition tcp_rack_reo_timeout : act unit :=
  prior_inflight <- gets (fun sk => tcp_packets_in_flight (tcp_sk sk)) ;;
  timeout <- detect_loss None ;;
  inflight <- gets (fun sk => tcp_packets_in_flight (tcp_sk sk)) ;;
  (if negb (prior_inflight =? inflight) then
     ca_state <- gets icsk_ca_state ;;
     (if negb (ca_state =? TCP_CA_Recovery) then
        call (tcp_enter_recovery false) ;;;
        hook <- gets cong_control ;;
        if negb hook then call (tcp_cwnd_reduction 1 0) else ret tt
      else ret tt) ;;;
     call tcp_xmit_retransmit_queue
   else ret tt) ;;;
  pending <- gets icsk_pending ;;
  if negb (pending =? ICSK_TIME_RETRANS) then call tcp_rearm_rto else ret tt.

(** The requests made when the scan took segments out of flight. *)
Definition recovery_requests (sk1 : sock) : list request :=
  (if icsk_ca_state sk1 =? TCP_CA_Recovery then []
   else tcp_enter_recovery false
        :: (if cong_control (collaborator (tcp_enter_recovery false) sk1)
            then []
            else [tcp_cwnd_reduction 1 0]))
  ++ [tcp_xmit_retransmit_queue].

(** * Properties *)

(** ** The walk over the write queue *)

Section Walk.

Context {A : Type} (body : A -> sk_buff -> option (A * sk_buff)).

Lemma walk_at_head :
  forall head i skb rest a,
    at_send_head head i = true ->
    tcp_for_write_queue body head i (skb :: rest) a = (skb :: rest, a).
Proof. intros head i skb rest a H. simpl. rewrite H. reflexivity. Qed.

Lemma walk_break :
  forall head i skb rest a,
    at_send_head head i = false ->
    body a skb = None ->
    tcp_for_write_queue body head i (skb :: rest) a = (skb :: rest, a).
Proof. intros head i skb rest a H Hb. simpl. rewrite H, Hb. reflexivity. Qed.

Lemma walk_continue :
  forall head i skb rest a a1 skb1,
    at_send_head head i = false ->
    body a skb = Some (a1, skb1) ->
    tcp_for_write_queue body head i (skb :: rest) a
    = (skb1 :: fst (tcp_for_write_queue body head (S i) rest a1),
       snd (tcp_for_write_queue body head (S i) rest a1)).
Proof.
  intros head i skb rest a a1 skb1 H Hb. simpl. rewrite H, Hb.
  destruct (tcp_for_write_queue body head (S i) rest a1). reflexivity.
Qed.

Lemma walk_length :
  forall head q i a,
    length (fst (tcp_for_write_queue body head i q a)) = length q.
Proof.
  intros head. induction q as [| skb rest IH]; intros i a; simpl.
  - reflexivity.
  - destruct (at_send_head head i); [reflexivity |].
    destruct (body a skb) as [[a1 skb1] |]; [| reflexivity].
    specialize (IH (S i) a1).
    destruct (tcp_for_write_queue body head (S i) rest a1). simpl in *.
    now rewrite IH.
Qed.

(** The walk rewrites the segments it passes and nothing after them. *)
Lemma walk_passed_split :
  forall head q i a,
    tcp_for_write_queue body head i q a
    = (fst (tcp_for_write_queue body None i
              (firstn (walk_passed body head i q a) q) a)
         ++ skipn (walk_passed body head i q a) q,
       snd (tcp_for_write_queue body None i
              (firstn (walk_passed body head i q a) q) a)).
Proof.
  intros head. induction q as [| skb rest IH]; intros i a; simpl.
  - reflexivity.
  - destruct (at_send_head head i); [reflexivity |].
    destruct (body a skb) as [[a1 skb1] |] eqn:Hb; [| reflexivity].
    simpl. rewrite Hb. rewrite (IH (S i) a1) at 1.
    destruct (tcp_for_write_queue body None (S i) _ a1). reflexivity.
Qed.

(** When the walk passes every segment of [pre], it goes on with the
    segments after [pre] from the state it has then. *)
Lemma walk_app :
  forall head pre rest i a,
    walk_passed body head i pre a = length pre ->
    tcp_for_write_queue body head i (pre ++ rest) a
    = (fst (tcp_for_write_queue body head i pre a)
         ++ fst (tcp_for_write_queue body head (i + length pre) rest
                   (snd (tcp_for_write_queue body head i pre a))),
       snd (tcp_for_write_queue body head (i + length pre) rest
              (snd (tcp_for_write_queue body head i pre a)))).
Proof.
  intros head. induction pre as [| skb pre IH]; intros rest i a Hp.
  - cbn [app length tcp_for_write_queue fst snd]. rewrite Nat.add_0_r.
    destruct (tcp_for_write_queue body head i rest a). reflexivity.
  - cbn [app length tcp_for_write_queue walk_passed] in *.
    destruct (at_send_head head i); [discriminate |].
    destruct (body a skb) as [[a1 skb1] |]; [| discriminate].
    injection Hp as Hp.
    rewrite (IH rest (S i) a1 Hp).
    replace (i + S (length pre))%nat with (S i + length pre)%nat by lia.
    destruct (tcp_for_write_queue body head (S i) pre a1) as [pre1 a2].
    reflexivity.
Qed.

(** The segments from the send head on are handed back as they are, and
    the walk of the segments before it does not depend on them. *)
Lemma walk_send_head :
  forall pre tail i a,
    tcp_for_write_queue body (Some (i + length pre)%nat) i (pre ++ tail) a
    = (fst (tcp_for_write_queue body (Some (i + length pre)%nat) i pre a)
         ++ tail,
       snd (tcp_for_write_queue body (Some (i + length pre)%nat) i pre a)).
Proof.
  induction pre as [| skb rest IH]; intros tail i a.
  - simpl. rewrite Nat.add_0_r. destruct tail as [| t tail']; [reflexivity |].
    simpl. rewrite Nat.eqb_refl. reflexivity.
  - cbn [app length tcp_for_write_queue].
    destruct (at_send_head (Some (i + S (length rest))%nat) i);
      [reflexivity |].
    destruct (body a skb) as [[a1 skb1] |]; [| reflexivity].
    replace (i + S (length rest))%nat with (S i + length rest)%nat by lia.
    rewrite (IH tail (S i) a1).
    destruct (tcp_for_write_queue body _ (S i) rest a1). reflexivity.
Qed.

End Walk.

(** ** Reference update: tcp_rack_advance *)

Lemma advance_cases :
  forall tp sacked end_seq xmit_time now rtt_us,
    tcp_rack_advance tp sacked end_seq xmit_time now rtt_us = tp \/
    (rack (tcp_rack_advance tp sacked end_seq xmit_time now rtt_us)
       = mk_rack xmit_time rtt_us end_seq true (rack_reord (rack tp))
     /\ (rack_mstamp (rack tp) = 0 \/ rack_mstamp (rack tp) < xmit_time)
     /\ (Z.land sacked TCPCB_RETRANS = 0
         \/ tcp_min_rtt tp <= skb_mstamp_us_delta now xmit_time)).
Proof.
  intros tp sk es xt now rtt. unfold tcp_rack_advance, skb_mstamp_after.
  destruct (rack_mstamp (rack tp) =? 0) eqn:Hset;
    destruct (rack_mstamp (rack tp) <? xt) eqn:Holder;
    destruct (Z.land sk TCPCB_RETRANS =? 0) eqn:Hre;
    destruct (skb_mstamp_us_delta now xt <? tcp_min_rtt tp) eqn:Hgate;
    simpl; auto; right; (split; [reflexivity |]);
    rewrite ?Z.eqb_eq, ?Z.eqb_neq, ?Z.ltb_lt, ?Z.ltb_ge in *;
    split; auto.
Qed.

(** C1 (amended).  On a segment whose retransmitted flag is set, an
    advance call whose elapsed time (from the segment's sent time to
    now) is below [tcp_min_rtt] changes nothing at all, and the
    reference changes only if the elapsed time is at least
    [tcp_min_rtt]; an unknown [tcp_min_rtt] is the value [U32_MAX] and
    is compared like any other.  When the elapsed time is at least
    [tcp_min_rtt] and the reference is unset or strictly older than the
    sent time, the update is accepted. *)
Theorem C1_retransmitted_gate :
  forall tp sacked end_seq xmit_time now rtt_us,
    Z.land sacked TCPCB_RETRANS <> 0 ->
    (skb_mstamp_us_delta now xmit_time < tcp_min_rtt tp ->
     tcp_rack_advance tp sacked end_seq xmit_time now rtt_us = tp)
    /\ (tcp_rack_advance tp sacked end_seq xmit_time now rtt_us <> tp ->
        tcp_min_rtt tp <= skb_mstamp_us_delta now xmit_time)
    /\ (tcp_min_rtt tp <= skb_mstamp_us_delta now xmit_time ->
        rack_mstamp (rack tp) = 0 \/ rack_mstamp (rack tp) < xmit_time ->
        rack (tcp_rack_advance tp sacked end_seq xmit_time now rtt_us)
          = mk_rack xmit_time rtt_us end_seq true (rack_reord (rack tp))).
Proof.
  intros tp sk es xt now rtt Hre. repeat split.
  - intro Hlt. unfold tcp_rack_advance.
    destruct (_ && _); [reflexivity |].
    apply Z.eqb_neq in Hre. apply Z.ltb_lt in Hlt.
    rewrite Hre, Hlt. reflexivity.
  - intro Hch.
    destruct (advance_cases tp sk es xt now rtt) as [H | (_ & _ & [H | H])];
      [contradiction | contradiction | exact H].
  - intros Hge Hfwd. unfold tcp_rack_advance, skb_mstamp_after.
    replace (negb (rack_mstamp (rack tp) =? 0)
             && negb (rack_mstamp (rack tp) <? xt)) with false.
    + apply Z.ltb_ge in Hge. rewrite Hge, andb_false_r. reflexivity.
    + symmetry. destruct Hfwd as [H0 | Hlt].
      * apply Z.eqb_eq in H0. rewrite H0. reflexivity.
      * apply Z.ltb_lt in Hlt. rewrite Hlt. apply andb_false_r.
Qed.

Lemma advance_mstamp_le :
  forall tp sacked end_seq xmit_time now rtt_us,
    0 <= xmit_time ->
    rack_mstamp (rack tp)
    <= rack_mstamp (rack (tcp_rack_advance tp sacked end_seq xmit_time
                            now rtt_us)).
Proof.
  intros tp sk es xt now rtt Hx.
  destruct (advance_cases tp sk es xt now rtt) as [H | (H & Hfwd & _)];
    rewrite H; simpl; lia.
Qed.

(** C6.  An advance call made while the reference time is set and not
    strictly older than the segment's sent time changes no field; over
    any sequence of advance calls (ambiguous or not) the reference time
    never decreases. *)
Theorem C6_reference_moves_forward :
  (forall tp sacked end_seq xmit_time now rtt_us,
      rack_mstamp (rack tp) <> 0 ->
      ~ rack_mstamp (rack tp) < xmit_time ->
      tcp_rack_advance tp sacked end_seq xmit_time now rtt_us = tp)
  /\ (forall cs tp,
         Forall (fun c => 0 <= ac_xmit_time c) cs ->
         rack_mstamp (rack tp) <= rack_mstamp (rack (advance_calls tp cs))).
Proof.
  split.
  - intros tp sk es xt now rtt Hset Hold.
    unfold tcp_rack_advance, skb_mstamp_after.
    apply Z.eqb_neq in Hset. apply Z.ltb_nlt in Hold.
    rewrite Hset, Hold. reflexivity.
  - unfold advance_calls. induction cs as [| c cs IH]; intros tp Hcs.
    + simpl. lia.
    + inversion Hcs as [| c' cs' Hc Hrest]; subst. simpl.
      etransitivity; [| apply IH; exact Hrest].
      apply advance_mstamp_le. exact Hc.
Qed.

(** ** The reorder window *)

(** C5.  The reorder window of a scan is at least 1000 microseconds; it
    is [max(min_rtt / 4, 1000)] when reordering has been observed and
    [min_rtt] is known, and 1000 otherwise; and it is the window with
    which [tcp_rack_mark_lost] walks the queue. *)
Theorem C5_reorder_window :
  forall sk,
    1000 <= rack_reo_wnd (tcp_sk sk)
    /\ (rack_reord (rack (tcp_sk sk)) = true ->
        tcp_min_rtt (tcp_sk sk) <> U32_MAX ->
        rack_reo_wnd (tcp_sk sk) = Z.max (tcp_min_rtt (tcp_sk sk) / 4) 1000)
    /\ (rack_reord (rack (tcp_sk sk)) = false
        \/ tcp_min_rtt (tcp_sk sk) = U32_MAX ->
        rack_reo_wnd (tcp_sk sk) = 1000)
    /\ ((icsk_ca_state sk <? TCP_CA_Recovery) = false ->
        rack_advanced (rack (tcp_sk sk)) = true ->
        sk_write_queue (fst (tcp_rack_mark_lost sk))
        = fst (tcp_for_write_queue
                 (mark_lost_skb (rack_reo_wnd (tcp_sk sk)))
                 (sk_send_head sk) 0 (sk_write_queue sk)
                 (clear_advanced (tcp_sk sk), mib_lostretransmit sk))).
Proof.
  intro sk. unfold rack_reo_wnd.
  repeat split.
  - destruct (_ && _); lia.
  - intros Hre Hrtt. apply Z.eqb_neq in Hrtt. rewrite Hre, Hrtt. simpl.
    rewrite Z.shiftr_div_pow2 by lia. reflexivity.
  - intros [Hre | Hrtt].
    + rewrite Hre. reflexivity.
    + apply Z.eqb_eq in Hrtt. rewrite Hrtt, andb_false_r. reflexivity.
  - intros Hca Hadv. unfold tcp_rack_mark_lost. rewrite Hca, Hadv. simpl.
    fold (rack_reo_wnd (tcp_sk sk)).
    destruct (tcp_for_write_queue _ _ _ _ _) as [q [tp2 mib]].
    reflexivity.
Qed.

(** ** The loop body on one segment *)

Lemma land_lor_disjoint :
  forall s l r, Z.land l r = 0 -> Z.land (Z.lor s l) r = Z.land s r.
Proof.
  intros s l r H. rewrite Z.land_lor_distr_l, H. apply Z.lor_0_r.
Qed.

Lemma land_clear_same :
  forall s r, Z.land (Z.land s (Z.lnot r)) r = 0.
Proof.
  intros s r. rewrite <- Z.land_assoc, (Z.land_comm (Z.lnot r) r).
  rewrite Z.land_lnot_diag. apply Z.land_0_r.
Qed.

Lemma land_lor_same :
  forall s l, Z.land (Z.lor s l) l = l.
Proof.
  intros s l. apply Z.bits_inj'. intros n Hn.
  rewrite Z.land_spec, Z.lor_spec.
  destruct (Z.testbit s n), (Z.testbit l n); reflexivity.
Qed.

Lemma land_clear_other :
  forall s l r,
    Z.land l r = 0 -> Z.land s l = l -> Z.land (Z.land s (Z.lnot r)) l = l.
Proof.
  intros s l r Hd Hs. apply Z.bits_inj'. intros n Hn.
  assert (Hdn : Z.testbit l n && Z.testbit r n = false)
    by (rewrite <- Z.land_spec, Hd; apply Z.bits_0).
  assert (Hsn : Z.testbit s n && Z.testbit l n = Z.testbit l n)
    by (rewrite <- Z.land_spec, Hs; reflexivity).
  rewrite !Z.land_spec, Z.lnot_spec by exact Hn.
  destruct (Z.testbit s n), (Z.testbit l n), (Z.testbit r n);
    simpl in *; congruence.
Qed.

Lemma lor_already_set :
  forall s l, Z.land s l = l -> Z.lor s l = s.
Proof.
  intros s l H. apply Z.bits_inj'. intros n Hn.
  assert (Hsn : Z.testbit s n && Z.testbit l n = Z.testbit l n)
    by (rewrite <- Z.land_spec, H; reflexivity).
  rewrite Z.lor_spec.
  destruct (Z.testbit s n), (Z.testbit l n); simpl in *; congruence.
Qed.

(** The body only ever rewrites [retrans_out] in [tp]. *)
Lemma mark_lost_skb_frame :
  forall reo_wnd tp mib skb tp1 mib1 skb1,
    mark_lost_skb reo_wnd (tp, mib) skb = Some ((tp1, mib1), skb1) ->
    rack tp1 = rack tp /\ snd_una tp1 = snd_una tp
    /\ tcp_min_rtt tp1 = tcp_min_rtt tp.
Proof.
  intros reo tp mib skb tp1 mib1 skb1. unfold mark_lost_skb.
  repeat match goal with
         | |- context [if ?c then _ else _] => destruct c
         end; intro H; inversion H; subst; auto.
Qed.

Lemma mark_lost_walk_rack :
  forall reo_wnd head q i tp mib,
    rack (fst (snd (tcp_for_write_queue (mark_lost_skb reo_wnd) head i q
                      (tp, mib))))
    = rack tp.
Proof.
  intros reo head. induction q as [| skb rest IH]; intros i tp mib.
  - reflexivity.
  - cbn [tcp_for_write_queue].
    destruct (at_send_head head i); [reflexivity |].
    destruct (mark_lost_skb reo (tp, mib) skb) as [[[tp1 mib1] skb1] |] eqn:Hb;
      [| reflexivity].
    apply mark_lost_skb_frame in Hb. destruct Hb as (Hr & _).
    specialize (IH (S i) tp1 mib1).
    destruct (tcp_for_write_queue _ head (S i) rest (tp1, mib1)).
    simpl in *. congruence.
Qed.

(** ** The loss scan *)

Lemma scan_late_original :
  forall reo_wnd head i skb rest tp mib,
    at_send_head head i = false ->
    skb_acked tp skb = false ->
    rack_mstamp (rack tp) <= skb_mstamp skb ->
    Z.land (sacked skb) TCPCB_RETRANS = 0 ->
    scan_leaves reo_wnd head i skb rest tp mib.
Proof.
  intros reo head i skb rest tp mib Hhead Hack Hlate Hre.
  apply walk_break; [exact Hhead |].
  unfold mark_lost_skb, skb_mstamp_after.
  apply Z.ltb_ge in Hlate. apply Z.eqb_eq in Hre.
  rewrite Hack, Hlate, Hre. reflexivity.
Qed.

Lemma scan_late_retransmission :
  forall reo_wnd head i skb rest tp mib,
    at_send_head head i = false ->
    skb_acked tp skb = false ->
    rack_mstamp (rack tp) <= skb_mstamp skb ->
    Z.land (sacked skb) TCPCB_RETRANS <> 0 ->
    scan_goes_on reo_wnd head i skb rest tp mib skb tp mib.
Proof.
  intros reo head i skb rest tp mib Hhead Hack Hlate Hre.
  apply walk_continue; [exact Hhead |].
  unfold mark_lost_skb, skb_mstamp_after.
  apply Z.ltb_ge in Hlate. apply Z.eqb_neq in Hre.
  rewrite Hack, Hlate, Hre. reflexivity.
Qed.

Lemma scan_inconclusive :
  forall reo_wnd head i skb rest tp mib,
    at_send_head head i = false ->
    skb_acked tp skb = false ->
    skb_mstamp skb < rack_mstamp (rack tp) ->
    rack_mstamp (rack tp) - skb_mstamp skb <= reo_wnd ->
    scan_goes_on reo_wnd head i skb rest tp mib skb tp mib.
Proof.
  intros reo head i skb rest tp mib Hhead Hack Hold Hin.
  apply walk_continue; [exact Hhead |].
  unfold mark_lost_skb, skb_mstamp_after, skb_mstamp_us_delta.
  apply Z.ltb_lt in Hold. apply Z.leb_le in Hin.
  rewrite Hack, Hold, Hin. reflexivity.
Qed.

Lemma scan_expired :
  forall reo_wnd head i skb rest tp mib,
    at_send_head head i = false ->
    skb_acked tp skb = false ->
    skb_mstamp skb < rack_mstamp (rack tp) ->
    reo_wnd < rack_mstamp (rack tp) - skb_mstamp skb ->
    exists skb1 tp1 mib1,
      scan_goes_on reo_wnd head i skb rest tp mib skb1 tp1 mib1
      /\ skb1 = lost_skb tp skb
      /\ (tp1, mib1)
         = if Z.land (Z.lor (sacked skb) TCPCB_LOST) TCPCB_SACKED_RETRANS =? 0
           then (tp, mib)
           else (set_retrans_out tp
                   (u32 (retrans_out tp - tcp_skb_pcount skb)),
                 mib + 1).
Proof.
  intros reo head i skb rest tp mib Hhead Hack Hold Hexp.
  assert (Hb : mark_lost_skb reo (tp, mib) skb
               = Some ((if Z.land (Z.lor (sacked skb) TCPCB_LOST)
                               TCPCB_SACKED_RETRANS =? 0
                        then (tp, mib)
                        else (set_retrans_out tp
                                (u32 (retrans_out tp - tcp_skb_pcount skb)),
                              mib + 1)),
                       lost_skb tp skb)).
  { unfold mark_lost_skb, lost_skb, skb_mstamp_after, skb_mstamp_us_delta,
      tcp_skb_mark_lost_uncond_verify.
    apply Z.ltb_lt in Hold. apply Z.leb_gt in Hexp.
    rewrite Hack, Hold, Hexp. cbn [sacked set_sacked tcp_skb_pcount].
    destruct (Z.land (Z.lor (sacked skb) TCPCB_LOST) TCPCB_SACKED_RETRANS
              =? 0); reflexivity. }
  destruct (Z.land (Z.lor (sacked skb) TCPCB_LOST) TCPCB_SACKED_RETRANS =? 0);
    eexists _, _, _; (split; [apply walk_continue; eassumption |]);
    split; reflexivity.
Qed.

(** C2.  In a scan that passes every segment of [pre] and then comes to
    an unacked segment [skb], not the send head, whose sent time is at or
    after the reference time: if [skb] is an original transmission the
    loop is left at once, [skb] and every later segment are handed back
    untouched and no counter moves further; if [skb] is a retransmission
    it is passed over unchanged and the scan goes on with the segments
    after it. *)
Theorem C2_early_stop :
  forall reo_wnd head i pre skb rest tp mib pre1 tp1 mib1,
    walk_passed (mark_lost_skb reo_wnd) head i pre (tp, mib) = length pre ->
    tcp_for_write_queue (mark_lost_skb reo_wnd) head i pre (tp, mib)
    = (pre1, (tp1, mib1)) ->
    at_send_head head (i + length pre) = false ->
    skb_acked tp1 skb = false ->
    rack_mstamp (rack tp1) <= skb_mstamp skb ->
    (Z.land (sacked skb) TCPCB_RETRANS = 0 ->
     tcp_for_write_queue (mark_lost_skb reo_wnd) head i
       (pre ++ skb :: rest) (tp, mib)
     = (pre1 ++ skb :: rest, (tp1, mib1)))
    /\ (Z.land (sacked skb) TCPCB_RETRANS <> 0 ->
        tcp_for_write_queue (mark_lost_skb reo_wnd) head i
          (pre ++ skb :: rest) (tp, mib)
        = (pre1 ++ skb
                :: fst (tcp_for_write_queue (mark_lost_skb reo_wnd) head
                          (S (i + length pre)) rest (tp1, mib1)),
           snd (tcp_for_write_queue (mark_lost_skb reo_wnd) head
                  (S (i + length pre)) rest (tp1, mib1)))).
Proof.
  intros reo head i pre skb rest tp mib pre1 tp1 mib1 Hp Hpre Hhead Hack
    Hlate.
  split; intro Hre; rewrite (walk_app _ head pre (skb :: rest) i _ Hp), Hpre;
    cbn [fst snd].
  - rewrite (scan_late_original reo head _ skb rest tp1 mib1 Hhead Hack
               Hlate Hre).
    reflexivity.
  - rewrite (scan_late_retransmission reo head _ skb rest tp1 mib1 Hhead
               Hack Hlate Hre).
    reflexivity.
Qed.

(** C3.  In a scan that passes every segment of [pre] and then comes to
    an unacked segment [skb], not the send head, sent strictly before the
    reference time with [elapsed = reference_time - sent_time > reo_wnd]:
    [skb] comes out with its lost flag set (unchanged if it was already
    lost and carries no retransmitted flag) and the scan goes on; if the
    retransmitted flag of [skb] was set, the flag is cleared,
    [retrans_out] is decreased by the packet count of [skb] and the
    statistic is incremented; otherwise no counter moves. *)
Theorem C3_mark_lost :
  forall reo_wnd head i pre skb rest tp mib pre1 tp1 mib1,
    Z.land TCPCB_LOST TCPCB_SACKED_RETRANS = 0 ->
    walk_passed (mark_lost_skb reo_wnd) head i pre (tp, mib) = length pre ->
    tcp_for_write_queue (mark_lost_skb reo_wnd) head i pre (tp, mib)
    = (pre1, (tp1, mib1)) ->
    at_send_head head (i + length pre) = false ->
    skb_acked tp1 skb = false ->
    skb_mstamp skb < rack_mstamp (rack tp1) ->
    reo_wnd < rack_mstamp (rack tp1) - skb_mstamp skb ->
    exists skb2 tp2 mib2,
      tcp_for_write_queue (mark_lost_skb reo_wnd) head i
        (pre ++ skb :: rest) (tp, mib)
      = (pre1 ++ skb2
              :: fst (tcp_for_write_queue (mark_lost_skb reo_wnd) head
                        (S (i + length pre)) rest (tp2, mib2)),
         snd (tcp_for_write_queue (mark_lost_skb reo_wnd) head
                (S (i + length pre)) rest (tp2, mib2)))
      /\ Z.land (sacked skb2) TCPCB_LOST = TCPCB_LOST
      /\ (end_seq skb2, skb_mstamp skb2, tcp_skb_pcount skb2)
         = (end_seq skb, skb_mstamp skb, tcp_skb_pcount skb)
      /\ (Z.land (sacked skb) TCPCB_SACKED_RETRANS <> 0 ->
          Z.land (sacked skb2) TCPCB_SACKED_RETRANS = 0
          /\ tp2 = set_retrans_out tp1
                     (u32 (retrans_out tp1 - tcp_skb_pcount skb))
          /\ mib2 = mib1 + 1)
      /\ (Z.land (sacked skb) TCPCB_SACKED_RETRANS = 0 ->
          sacked skb2 = Z.lor (sacked skb) TCPCB_LOST
          /\ tp2 = tp1 /\ mib2 = mib1
          /\ (Z.land (sacked skb) TCPCB_LOST = TCPCB_LOST -> skb2 = skb)).
Proof.
  intros reo head i pre skb rest tp mib pre1 tp1 mib1 Hdisj Hp Hpre Hhead
    Hack Hold Hexp.
  destruct (scan_expired reo head (i + length pre) skb rest tp1 mib1 Hhead
              Hack Hold Hexp) as (skb2 & tp2 & mib2 & Hgo & Hskb & Hst).
  exists skb2, tp2, mib2.
  split.
  { rewrite (walk_app _ head pre (skb :: rest) i _ Hp), Hpre. cbn [fst snd].
    unfold scan_goes_on in Hgo. rewrite Hgo. reflexivity. }
  rewrite (land_lor_disjoint _ _ _ Hdisj) in Hst.
  subst skb2. unfold lost_skb, tcp_skb_mark_lost_uncond_verify.
  cbn [sacked set_sacked]. rewrite (land_lor_disjoint _ _ _ Hdisj).
  destruct (Z.land (sacked skb) TCPCB_SACKED_RETRANS =? 0) eqn:Hre;
    injection Hst as -> ->; cbn [sacked end_seq skb_mstamp tcp_skb_pcount
                                   set_sacked].
  - apply Z.eqb_eq in Hre.
    split; [apply land_lor_same |].
    split; [reflexivity |].
    split; [intro Hn; contradiction |].
    intros _. repeat (split; [reflexivity |]).
    intro Hl. rewrite (lor_already_set _ _ Hl). destruct skb; reflexivity.
  - apply Z.eqb_neq in Hre.
    split; [apply land_clear_other; [exact Hdisj | apply land_lor_same] |].
    split; [reflexivity |].
    split; [| intro H0; contradiction].
    intros _. split; [apply land_clear_same |].
    split; reflexivity.
Qed.

(** [tcp_rack_mark_lost] past its guard, in terms of the walk. *)
Lemma mark_lost_scans :
  forall sk,
    (icsk_ca_state sk <? TCP_CA_Recovery)
    || negb (rack_advanced (rack (tcp_sk sk))) = false ->
    forall w,
      w = tcp_for_write_queue
            (mark_lost_skb (rack_reo_wnd (clear_advanced (tcp_sk sk))))
            (sk_send_head sk) 0 (sk_write_queue sk)
            (clear_advanced (tcp_sk sk), mib_lostretransmit sk) ->
      tcp_rack_mark_lost sk
      = (mk_sock (fst (snd w)) (icsk_ca_state sk) (icsk_pending sk)
                 (icsk_rto sk) (cong_control sk) (fst w) (sk_send_head sk)
                 (snd (snd w)),
         int_of_u32 (u32 (retrans_out (tcp_sk sk)
                          - retrans_out (fst (snd w))))).
Proof.
  intros sk Hg w Hw. unfold tcp_rack_mark_lost. rewrite Hg, <- Hw.
  destruct w as [q [tp2 mib]]. reflexivity.
Qed.

(** C10.  With the send head at a position of the write queue, a call of
    [tcp_rack_mark_lost] hands back every segment from that position on
    as it was, and everything else it produces (the segments before the
    send head, the socket fields, the result) is the same whatever those
    segments are. *)
Theorem C10_send_head :
  forall sk pre tail,
    sk_send_head sk = Some (length pre) ->
    sk_write_queue sk = pre ++ tail ->
    exists pre',
      length pre' = length pre
      /\ sk_write_queue (fst (tcp_rack_mark_lost sk)) = pre' ++ tail
      /\ forall tail',
           tcp_rack_mark_lost (set_write_queue sk (pre ++ tail'))
           = (set_write_queue (fst (tcp_rack_mark_lost sk)) (pre' ++ tail'),
              snd (tcp_rack_mark_lost sk)).
Proof.
  intros sk pre tail Hhead Hq.
  destruct ((icsk_ca_state sk <? TCP_CA_Recovery)
            || negb (rack_advanced (rack (tcp_sk sk)))) eqn:Hg.
  - exists pre. unfold tcp_rack_mark_lost. simpl. rewrite Hg. simpl.
    split; [reflexivity |]. split; [exact Hq |]. intro tail'. reflexivity.
  - set (bd := mark_lost_skb (rack_reo_wnd (clear_advanced (tcp_sk sk)))).
    set (a0 := (clear_advanced (tcp_sk sk), mib_lostretransmit sk)).
    pose proof (fun tl => walk_send_head bd pre tl 0%nat a0) as Hw.
    cbn [Nat.add] in Hw.
    exists (fst (tcp_for_write_queue bd (Some (length pre)) 0 pre a0)).
    split; [apply walk_length |].
    rewrite (mark_lost_scans sk Hg _ eq_refl).
    rewrite Hhead, Hq. fold bd a0. rewrite (Hw tail). simpl.
    split; [reflexivity |].
    intro tail'.
    rewrite (mark_lost_scans (set_write_queue sk (pre ++ tail')) Hg _ eq_refl).
    simpl. rewrite Hhead. fold bd a0. rewrite (Hw tail').
    reflexivity.
Qed.

(** ** The timeout of the detection step *)

Lemma track_min_fold :
  forall l t0,
    exists t,
      fold_left track_min l (Some t0) = Some t
      /\ t <= t0
      /\ (forall r, In r l -> t <= r)
      /\ (t = t0 \/ In t l).
Proof.
  induction l as [| r l IH]; intro t0; simpl.
  - exists t0. split; [reflexivity |]. split; [lia |].
    split; [intros r [] | left; reflexivity].
  - destruct (IH (Z.min t0 r)) as (t & Hf & Hle & Hall & Hin).
    exists t. split; [exact Hf |]. split; [lia |].
    split.
    + intros r' [<- | Hr']; [lia | auto].
    + destruct Hin as [-> | Hin]; [| auto].
      destruct (Z.min_spec t0 r) as [[_ ->] | [_ ->]]; auto.
Qed.

Lemma detect_loss_skb_frame :
  forall reo_wnd tp mib tmo skb tp1 mib1 tmo1 skb1,
    detect_loss_skb reo_wnd (tp, mib, tmo) skb
    = Some ((tp1, mib1, tmo1), skb1) ->
    rack tp1 = rack tp /\ snd_una tp1 = snd_una tp.
Proof.
  intros reo tp mib tmo skb tp1 mib1 tmo1 skb1. unfold detect_loss_skb.
  repeat match goal with
         | |- context [if ?c then _ else _] => destruct c
         end; intro H; inversion H; subst; auto.
Qed.

Lemma inconclusive_frame :
  forall reo_wnd tp tp0 skb,
    rack tp = rack tp0 -> snd_una tp = snd_una tp0 ->
    inconclusive reo_wnd tp skb = inconclusive reo_wnd tp0 skb.
Proof.
  intros reo tp tp0 skb Hr Hu. unfold inconclusive, skb_acked.
  rewrite Hr, Hu. reflexivity.
Qed.

(** On a segment it leaves inconclusive the step keeps the segment and
    tracks its [remaining]; on any other segment it passes, the tracked
    minimum stays. *)
Lemma detect_loss_skb_timeout :
  forall reo_wnd tp mib tmo skb tp1 mib1 tmo1 skb1,
    detect_loss_skb reo_wnd (tp, mib, tmo) skb
    = Some ((tp1, mib1, tmo1), skb1) ->
    if inconclusive reo_wnd tp skb
    then skb1 = skb /\ tmo1 = track_min tmo (remaining reo_wnd tp skb)
    else tmo1 = tmo.
Proof.
  intros reo tp mib tmo skb tp1 mib1 tmo1 skb1.
  unfold detect_loss_skb, inconclusive, remaining.
  destruct (skb_acked tp skb); simpl.
  - intro H; inversion H; reflexivity.
  - destruct (skb_mstamp_after _ _); simpl.
    + destruct (_ <=? _); simpl.
      * intro H; inversion H; subst. split; reflexivity.
      * destruct (negb _); intro H; inversion H; reflexivity.
    + destruct (_ =? _); intro H; inversion H; reflexivity.
Qed.

Lemma detect_walk_timeout :
  forall reo_wnd head tp0 q i tp mib tmo,
    rack tp = rack tp0 -> snd_una tp = snd_una tp0 ->
    snd (snd (tcp_for_write_queue (detect_loss_skb reo_wnd) head i q
                (tp, mib, tmo)))
    = fold_left track_min
        (map (remaining reo_wnd tp0)
           (filter (inconclusive reo_wnd tp0)
              (firstn (walk_passed (detect_loss_skb reo_wnd) head i q
                         (tp, mib, tmo)) q)))
        tmo.
Proof.
  intros reo head tp0. induction q as [| skb rest IH];
    intros i tp mib tmo Hr Hu.
  - reflexivity.
  - cbn [tcp_for_write_queue walk_passed].
    destruct (at_send_head head i); [reflexivity |].
    destruct (detect_loss_skb reo (tp, mib, tmo) skb)
      as [[[[tp1 mib1] tmo1] skb1] |] eqn:Hb; [| reflexivity].
    pose proof (detect_loss_skb_frame _ _ _ _ _ _ _ _ _ Hb) as [Hr1 Hu1].
    pose proof (detect_loss_skb_timeout _ _ _ _ _ _ _ _ _ Hb) as Ht.
    rewrite (inconclusive_frame reo tp tp0 skb Hr Hu) in Ht.
    assert (Hrem : remaining reo tp skb = remaining reo tp0 skb)
      by (unfold remaining; rewrite Hr; reflexivity).
    specialize (IH (S i) tp1 mib1 tmo1).
    destruct (tcp_for_write_queue _ head (S i) rest (tp1, mib1, tmo1))
      as [rest1 [[tp2 mib2] tmo2]].
    cbn [snd fst] in *. cbn [firstn filter].
    rewrite IH by congruence.
    destruct (inconclusive reo tp0 skb).
    + destruct Ht as [_ ->]. rewrite Hrem. reflexivity.
    + rewrite Ht. reflexivity.
Qed.

Lemma detect_walk_keeps :
  forall reo_wnd head tp0 q i tp mib tmo k skb,
    rack tp = rack tp0 -> snd_una tp = snd_una tp0 ->
    (k < walk_passed (detect_loss_skb reo_wnd) head i q (tp, mib, tmo))%nat ->
    nth_error q k = Some skb ->
    inconclusive reo_wnd tp0 skb = true ->
    nth_error (fst (tcp_for_write_queue (detect_loss_skb reo_wnd) head i q
                      (tp, mib, tmo))) k
    = Some skb.
Proof.
  intros reo head tp0. induction q as [| s rest IH];
    intros i tp mib tmo k skb Hr Hu Hk Hnth Hinc.
  - simpl in Hk. lia.
  - cbn [tcp_for_write_queue walk_passed] in *.
    destruct (at_send_head head i); [lia |].
    destruct (detect_loss_skb reo (tp, mib, tmo) s)
      as [[[[tp1 mib1] tmo1] s1] |] eqn:Hb; [| lia].
    pose proof (detect_loss_skb_frame _ _ _ _ _ _ _ _ _ Hb) as [Hr1 Hu1].
    pose proof (detect_loss_skb_timeout _ _ _ _ _ _ _ _ _ Hb) as Ht.
    rewrite (inconclusive_frame reo tp tp0 s Hr Hu) in Ht.
    specialize (IH (S i) tp1 mib1 tmo1).
    destruct (tcp_for_write_queue _ head (S i) rest (tp1, mib1, tmo1))
      as [rest1 a2].
    cbn [fst] in *.
    destruct k as [| k]; simpl in *.
    + inversion Hnth; subst. rewrite Hinc in Ht. destruct Ht as [-> _].
      reflexivity.
    + apply IH; try congruence. lia.
Qed.

(** C4.  In a scan of [tcp_rack_mark_lost] that passes every segment of
    [pre] and then comes to an unacked segment, not the send head, with
    a sent time strictly before the reference time and [elapsed <=
    reo_wnd], the segment is handed back unchanged, no counter moves and
    the scan goes on.  In the
    detection step that returns a timeout, such segments are handed back
    unchanged as well, the result is the least [reo_wnd - elapsed] over
    them, and it is [None] when there is none. *)
Theorem C4_inconclusive :
  (forall reo_wnd head i pre skb rest tp mib pre1 tp1 mib1,
      walk_passed (mark_lost_skb reo_wnd) head i pre (tp, mib) = length pre ->
      tcp_for_write_queue (mark_lost_skb reo_wnd) head i pre (tp, mib)
      = (pre1, (tp1, mib1)) ->
      at_send_head head (i + length pre) = false ->
      skb_acked tp1 skb = false ->
      skb_mstamp skb < rack_mstamp (rack tp1) ->
      rack_mstamp (rack tp1) - skb_mstamp skb <= reo_wnd ->
      tcp_for_write_queue (mark_lost_skb reo_wnd) head i
        (pre ++ skb :: rest) (tp, mib)
      = (pre1 ++ skb
              :: fst (tcp_for_write_queue (mark_lost_skb reo_wnd) head
                        (S (i + length pre)) rest (tp1, mib1)),
         snd (tcp_for_write_queue (mark_lost_skb reo_wnd) head
                (S (i + length pre)) rest (tp1, mib1))))
  /\ (forall sk,
         (forall k skb,
             (k < length (detect_passed sk))%nat ->
             nth_error (sk_write_queue sk) k = Some skb ->
             inconclusive (rack_reo_wnd (tcp_sk sk)) (tcp_sk sk) skb = true ->
             nth_error (sk_write_queue (fst (rack_detect_loss sk))) k
             = Some skb)
         /\ (detect_inconclusive sk = [] ->
             snd (rack_detect_loss sk) = None)
         /\ (detect_inconclusive sk <> [] ->
             exists t,
               snd (rack_detect_loss sk) = Some t
               /\ (exists skb,
                      In skb (detect_inconclusive sk)
                      /\ t = remaining (rack_reo_wnd (tcp_sk sk)) (tcp_sk sk)
                               skb)
               /\ (forall skb,
                      In skb (detect_inconclusive sk) ->
                      t <= remaining (rack_reo_wnd (tcp_sk sk)) (tcp_sk sk)
                             skb))).
Proof.
  split.
  - intros reo head i pre skb rest tp mib pre1 tp1 mib1 Hp Hpre Hhead Hack
      Hold Hin.
    rewrite (walk_app _ head pre (skb :: rest) i _ Hp), Hpre. cbn [fst snd].
    rewrite (scan_inconclusive reo head _ skb rest tp1 mib1 Hhead Hack Hold
               Hin).
    reflexivity.
  - intro sk.
    set (reo := rack_reo_wnd (tcp_sk sk)).
    set (a0 := (tcp_sk sk, mib_lostretransmit sk, @None Z)).
    set (w := tcp_for_write_queue (detect_loss_skb reo) (sk_send_head sk) 0
                (sk_write_queue sk) a0).
    assert (Hq : sk_write_queue (fst (rack_detect_loss sk)) = fst w
                 /\ snd (rack_detect_loss sk) = snd (snd w)).
    { unfold rack_detect_loss. fold reo a0 w.
      destruct w as [q [[tp mib] tmo]]. split; reflexivity. }
    destruct Hq as [Hq Ht].
    assert (Hto : snd (snd w)
                  = fold_left track_min
                      (map (remaining reo (tcp_sk sk))
                         (detect_inconclusive sk)) None).
    { unfold w, a0, detect_inconclusive, detect_passed. fold reo.
      apply detect_walk_timeout; reflexivity. }
    split; [| split].
    + intros k skb Hk Hnth Hinc. rewrite Hq. unfold w, a0.
      apply (detect_walk_keeps reo (sk_send_head sk) (tcp_sk sk));
        try reflexivity; try assumption.
      unfold detect_passed in Hk. fold reo in Hk.
      rewrite length_firstn in Hk. lia.
    + intro Hnil. rewrite Ht, Hto, Hnil. reflexivity.
    + intro Hne. rewrite Ht, Hto.
      destruct (detect_inconclusive sk) as [| s l] eqn:Hl;
        [contradiction |].
      cbn [map fold_left track_min].
      destruct (track_min_fold (map (remaining reo (tcp_sk sk)) l)
                  (remaining reo (tcp_sk sk) s))
        as (t & Hf & Hle & Hall & Hmem).
      exists t. split; [exact Hf |]. split.
      * destruct Hmem as [-> | Hmem].
        -- exists s. split; [left; reflexivity | reflexivity].
        -- apply in_map_iff in Hmem. destruct Hmem as (x & Hx & Hxin).
           exists x. split; [right; exact Hxin | symmetry; exact Hx].
      * intros skb [<- | Hin]; [exact Hle |].
        apply Hall. apply in_map. exact Hin.
Qed.

Lemma detect_walk_rack :
  forall reo_wnd head q i tp mib tmo,
    rack (fst (fst (snd (tcp_for_write_queue (detect_loss_skb reo_wnd) head
                           i q (tp, mib, tmo)))))
    = rack tp.
Proof.
  intros reo head. induction q as [| skb rest IH]; intros i tp mib tmo.
  - reflexivity.
  - cbn [tcp_for_write_queue].
    destruct (at_send_head head i); [reflexivity |].
    destruct (detect_loss_skb reo (tp, mib, tmo) skb)
      as [[[[tp1 mib1] tmo1] skb1] |] eqn:Hb; [| reflexivity].
    apply detect_loss_skb_frame in Hb. destruct Hb as [Hr _].
    specialize (IH (S i) tp1 mib1 tmo1).
    destruct (tcp_for_write_queue _ head (S i) rest (tp1, mib1, tmo1)).
    simpl in *. congruence.
Qed.

(** The detection step leaves [tp->rack] alone. *)
Lemma rack_detect_loss_rack :
  forall sk, rack (tcp_sk (fst (rack_detect_loss sk))) = rack (tcp_sk sk).
Proof.
  intro sk. unfold rack_detect_loss.
  pose proof (detect_walk_rack (rack_reo_wnd (tcp_sk sk)) (sk_send_head sk)
                (sk_write_queue sk) 0 (tcp_sk sk) (mib_lostretransmit sk)
                None) as H.
  destruct (tcp_for_write_queue _ _ _ _ _) as [q [[tp mib] tmo]].
  exact H.
Qed.

(** ** The fast path *)

(** C7.  With the [advanced] flag clear, [tcp_rack_mark_lost] (lines
    22-79) returns 0 and leaves the socket as it is, and
    [tcp_rack_mark_lost] (lines 81-97) neither calls the detection step
    nor makes a request nor changes the socket.  A second call right
    after a first one is such a call: for the scanning function always,
    for the timer-arming one provided the detection step and the timer
    collaborator do not set the flag. *)
Theorem C7_not_advanced_noop :
  (forall sk,
      rack_advanced (rack (tcp_sk sk)) = false ->
      tcp_rack_mark_lost sk = (sk, 0))
  /\ (forall sk,
         tcp_rack_mark_lost (fst (tcp_rack_mark_lost sk))
         = (fst (tcp_rack_mark_lost sk), 0))
  /\ (forall now w,
         rack_advanced (rack (tcp_sk (fst w))) = false ->
         tcp_rack_mark_lost_at now w = (tt, w))
  /\ ((forall sk t,
          rack_advanced (rack (tcp_sk sk)) = false ->
          rack_advanced
            (rack (tcp_sk (fst (tcp_rack_detect_loss sk t)))) = false) ->
      (forall r sk,
          rack_advanced (rack (tcp_sk sk)) = false ->
          rack_advanced (rack (tcp_sk (collaborator r sk))) = false) ->
      forall now now' w,
        tcp_rack_mark_lost_at now' (snd (tcp_rack_mark_lost_at now w))
        = (tt, snd (tcp_rack_mark_lost_at now w))).
Proof.
  assert (H1 : forall sk,
             rack_advanced (rack (tcp_sk sk)) = false ->
             tcp_rack_mark_lost sk = (sk, 0)).
  { intros sk H. unfold tcp_rack_mark_lost. rewrite H, orb_true_r.
    reflexivity. }
  assert (H3 : forall now w,
             rack_advanced (rack (tcp_sk (fst w))) = false ->
             tcp_rack_mark_lost_at now w = (tt, w)).
  { intros now [sk log] H. unfold tcp_rack_mark_lost_at, bind, gets, ret.
    simpl in *. rewrite H. reflexivity. }
  split; [exact H1 |]. split; [| split; [exact H3 |]].
  - intro sk.
    destruct ((icsk_ca_state sk <? TCP_CA_Recovery)
              || negb (rack_advanced (rack (tcp_sk sk)))) eqn:Hg.
    + assert (He : tcp_rack_mark_lost sk = (sk, 0))
        by (unfold tcp_rack_mark_lost; rewrite Hg; reflexivity).
      rewrite He. simpl. exact He.
    + rewrite (mark_lost_scans sk Hg _ eq_refl). cbn [fst].
      apply H1. cbn [tcp_sk]. rewrite mark_lost_walk_rack. reflexivity.
  - intros Hd Hc now now' [sk log]. apply H3.
    unfold tcp_rack_mark_lost_at, bind, gets, ret, modify, detect_loss, call.
    cbn [fst snd].
    destruct (rack_advanced (rack (tcp_sk sk))) eqn:Hadv; cbn [negb fst snd].
    + pose proof (Hd (set_tcp_sk sk (clear_advanced (tcp_sk sk))) (Some now)
                    eq_refl) as Hd1.
      destruct (tcp_rack_detect_loss _ (Some now)) as [sk1 timeout].
      cbn [fst snd] in *.
      destruct (timeout =? 0); cbn [negb fst snd].
      * exact Hd1.
      * apply Hc. exact Hd1.
    + exact Hadv.
Qed.

(** ** Arming the re-check timer *)



(** ** The re-check timer fires *)

(** C9.  [tcp_rack_reo_timeout] runs the detection step.  Given that the
    step never raises the in-flight count, exactly when the count went
    down the requests are: entry into recovery unless the connection is
    in recovery already, then a one-segment window reduction if no
    [cong_control] hook is set, then retransmission.  Last, unless the
    pending timer is [ICSK_TIME_RETRANS], the retransmission timer is
    re-armed.  Nothing else is requested. *)
Theorem C9_reo_timeout :
  forall sk log sk1 timeout,
    tcp_rack_detect_loss sk None = (sk1, timeout) ->
    tcp_packets_in_flight (tcp_sk sk1) <= tcp_packets_in_flight (tcp_sk sk) ->
    forall on_loss rearm,
      on_loss = (if tcp_packets_in_flight (tcp_sk sk1)
                    <? tcp_packets_in_flight (tcp_sk sk)
                 then recovery_requests sk1 else []) ->
      rearm = (if icsk_pending (serve on_loss sk1) =? ICSK_TIME_RETRANS
               then [] else [tcp_rearm_rto]) ->
      tcp_rack_reo_timeout (sk, log)
      = (tt, (serve (on_loss ++ rearm) sk1, log ++ on_loss ++ rearm)).
Proof.
  intros sk log sk1 timeout Hd Hle on_loss rearm -> ->.
  unfold tcp_rack_reo_timeout, bind, gets, ret, detect_loss, call.
  cbn [fst snd]. rewrite Hd. cbn [fst snd].
  replace (tcp_packets_in_flight (tcp_sk sk)
           =? tcp_packets_in_flight (tcp_sk sk1))
    with (negb (tcp_packets_in_flight (tcp_sk sk1)
                <? tcp_packets_in_flight (tcp_sk sk))).
  2:{ destruct (Z.ltb_spec (tcp_packets_in_flight (tcp_sk sk1))
                  (tcp_packets_in_flight (tcp_sk sk))); simpl; symmetry;
      [apply Z.eqb_neq | apply Z.eqb_eq]; lia. }
  unfold recovery_requests, serve.
  destruct (tcp_packets_in_flight (tcp_sk sk1)
            <? tcp_packets_in_flight (tcp_sk sk)); simpl.
  - destruct (icsk_ca_state sk1 =? TCP_CA_Recovery); simpl.
    + destruct (icsk_pending _ =? ICSK_TIME_RETRANS); simpl;
        rewrite <- ?app_assoc; reflexivity.
    + destruct (cong_control (collaborator (tcp_enter_recovery false) sk1));
        simpl;
        destruct (icsk_pending _ =? ICSK_TIME_RETRANS); simpl;
        rewrite <- ?app_assoc; reflexivity.
  - destruct (icsk_pending sk1 =? ICSK_TIME_RETRANS); simpl;
      rewrite ?app_nil_r; reflexivity.
Qed.

(** * Further properties of the code *)

(** ** The loop body by cases *)

Lemma mark_lost_skb_eq :
  forall reo_wnd tp mib skb,
    mark_lost_skb reo_wnd (tp, mib) skb
    = if expired reo_wnd tp skb then
        Some ((if void_retrans reo_wnd tp skb
               then (set_retrans_out tp
                       (u32 (retrans_out tp - tcp_skb_pcount skb)),
                     mib + 1)
               else (tp, mib)),
              lost_skb tp skb)
      else if late_original tp skb then None
      else Some ((tp, mib), skb).
Proof.
  intros reo tp mib skb.
  unfold mark_lost_skb, expired, void_retrans, late_original, lost_skb,
    expired.
  destruct (skb_acked tp skb); [reflexivity |].
  destruct (skb_mstamp_after _ _); cbn [negb andb].
  - destruct (_ <=? reo); cbn [negb andb]; [reflexivity |].
    destruct (Z.land (sacked (tcp_skb_mark_lost_uncond_verify tp skb))
                TCPCB_SACKED_RETRANS =? 0); reflexivity.
  - destruct (Z.land (sacked skb) TCPCB_RETRANS =? 0); reflexivity.
Qed.

(** The body reads [tp] only through [tp->rack.mstamp] and
    [tp->snd_una]. *)
Lemma verdicts_frame :
  forall reo_wnd tp tp0 skb,
    rack_mstamp (rack tp) = rack_mstamp (rack tp0) ->
    snd_una tp = snd_una tp0 ->
    expired reo_wnd tp skb = expired reo_wnd tp0 skb
    /\ void_retrans reo_wnd tp skb = void_retrans reo_wnd tp0 skb
    /\ late_original tp skb = late_original tp0 skb
    /\ lost_skb tp skb = lost_skb tp0 skb.
Proof.
  intros reo tp tp0 skb Hr Hu.
  unfold void_retrans, expired, late_original, skb_acked.
  rewrite Hr, Hu. repeat split; reflexivity.
Qed.

Lemma lost_skb_fixed :
  forall tp skb, skb_fixed (lost_skb tp skb) = skb_fixed skb.
Proof.
  intros tp skb. unfold lost_skb, tcp_skb_mark_lost_uncond_verify.
  cbn [sacked set_sacked]. destruct (_ =? 0); reflexivity.
Qed.

Lemma lost_skb_retrans_clear :
  forall tp skb, Z.land (sacked (lost_skb tp skb)) TCPCB_SACKED_RETRANS = 0.
Proof.
  intros tp skb. unfold lost_skb, tcp_skb_mark_lost_uncond_verify.
  cbn [sacked set_sacked].
  destruct (Z.land (Z.lor (sacked skb) TCPCB_LOST) TCPCB_SACKED_RETRANS =? 0)
    eqn:H; cbn [sacked set_sacked].
  - apply Z.eqb_eq. exact H.
  - apply land_clear_same.
Qed.

Lemma lost_skb_lost :
  forall tp skb,
    Z.land TCPCB_LOST TCPCB_SACKED_RETRANS = 0 ->
    Z.land (sacked (lost_skb tp skb)) TCPCB_LOST = TCPCB_LOST.
Proof.
  intros tp skb Hd. unfold lost_skb, tcp_skb_mark_lost_uncond_verify.
  cbn [sacked set_sacked].
  destruct (_ =? 0); cbn [sacked set_sacked].
  - apply land_lor_same.
  - apply land_clear_other; [exact Hd | apply land_lor_same].
Qed.

Lemma lost_skb_other_bits :
  forall tp skb,
    Z.land (sacked (lost_skb tp skb))
           (Z.lnot (Z.lor TCPCB_LOST TCPCB_SACKED_RETRANS))
    = Z.land (sacked skb) (Z.lnot (Z.lor TCPCB_LOST TCPCB_SACKED_RETRANS)).
Proof.
  intros tp skb. unfold lost_skb, tcp_skb_mark_lost_uncond_verify.
  cbn [sacked set_sacked].
  destruct (_ =? 0); cbn [sacked set_sacked];
    apply Z.bits_inj'; intros n Hn;
    rewrite ?Z.land_spec, ?Z.lnot_spec, ?Z.lor_spec by exact Hn;
    destruct (Z.testbit (sacked skb) n), (Z.testbit TCPCB_LOST n),
      (Z.testbit TCPCB_SACKED_RETRANS n); reflexivity.
Qed.

(** ** What a scan changes *)

(** A segment comes out of the walk as it went in, unless the walk
    passed it and judged it lost. *)
Lemma mark_lost_walk_nth :
  forall reo_wnd head tp0 q i tp mib k a,
    rack_mstamp (rack tp) = rack_mstamp (rack tp0) ->
    snd_una tp = snd_una tp0 ->
    nth_error q k = Some a ->
    nth_error (fst (tcp_for_write_queue (mark_lost_skb reo_wnd) head i q
                      (tp, mib))) k = Some a
    \/ (expired reo_wnd tp0 a = true
        /\ (k < walk_passed (mark_lost_skb reo_wnd) head i q (tp, mib))%nat
        /\ nth_error (fst (tcp_for_write_queue (mark_lost_skb reo_wnd) head
                             i q (tp, mib))) k
           = Some (lost_skb tp0 a)).
Proof.
  intros reo head tp0. induction q as [| s rest IH];
    intros i tp mib k a Hr Hu Hnth.
  - destruct k; discriminate.
  - cbn [tcp_for_write_queue walk_passed].
    destruct (at_send_head head i); [left; exact Hnth |].
    destruct (verdicts_frame reo tp tp0 s Hr Hu) as (He & _ & _ & Hl).
    pose proof (mark_lost_skb_frame reo tp mib s) as Hf.
    rewrite mark_lost_skb_eq in *. rewrite He, Hl in *.
    destruct (expired reo tp0 s) eqn:Hexp.
    + set (st1 := if void_retrans reo tp s then _ else _) in *.
      destruct st1 as [tp1 mib1].
      destruct (Hf tp1 mib1 _ eq_refl) as (Hr1 & Hu1 & _).
      specialize (IH (S i) tp1 mib1).
      destruct (tcp_for_write_queue _ head (S i) rest (tp1, mib1))
        as [rest1 a2].
      cbn [fst] in *. destruct k as [| k]; cbn [nth_error] in *.
      * injection Hnth as <-. right. split; [exact Hexp |].
        split; [lia | reflexivity].
      * destruct (IH k a) as [H | (H1 & H2 & H3)];
          try congruence; [left; exact H | right].
        split; [exact H1 |]. split; [lia | exact H3].
    + destruct (late_original tp s); [left; exact Hnth |].
      specialize (IH (S i) tp mib).
      destruct (tcp_for_write_queue _ head (S i) rest (tp, mib))
        as [rest1 a2].
      cbn [fst] in *. destruct k as [| k]; cbn [nth_error] in *.
      * left. exact Hnth.
      * destruct (IH k a Hr Hu Hnth) as [H | (H1 & H2 & H3)];
          [left; exact H | right].
        split; [exact H1 |]. split; [lia | exact H3].
Qed.

(** The same for a call of [tcp_rack_mark_lost]. *)
Lemma mark_lost_nth :
  forall sk k a,
    nth_error (sk_write_queue sk) k = Some a ->
    nth_error (sk_write_queue (fst (tcp_rack_mark_lost sk))) k = Some a
    \/ ((icsk_ca_state sk <? TCP_CA_Recovery) = false
        /\ rack_advanced (rack (tcp_sk sk)) = true
        /\ (k < length (mark_lost_passed sk))%nat
        /\ expired (rack_reo_wnd (tcp_sk sk)) (tcp_sk sk) a = true
        /\ nth_error (sk_write_queue (fst (tcp_rack_mark_lost sk))) k
           = Some (lost_skb (tcp_sk sk) a)).
Proof.
  intros sk k a Ha.
  destruct ((icsk_ca_state sk <? TCP_CA_Recovery)
            || negb (rack_advanced (rack (tcp_sk sk)))) eqn:Hg.
  - left.
    assert (He : tcp_rack_mark_lost sk = (sk, 0))
      by (unfold tcp_rack_mark_lost; rewrite Hg; reflexivity).
    rewrite He. exact Ha.
  - rewrite (mark_lost_scans sk Hg _ eq_refl). cbn [fst sk_write_queue].
    apply orb_false_elim in Hg. destruct Hg as [Hca Hadv].
    apply negb_false_iff in Hadv.
    destruct (mark_lost_walk_nth
                (rack_reo_wnd (clear_advanced (tcp_sk sk)))
                (sk_send_head sk) (tcp_sk sk) (sk_write_queue sk) 0
                (clear_advanced (tcp_sk sk)) (mib_lostretransmit sk) k a
                eq_refl eq_refl Ha) as [H | (H1 & H2 & H3)].
    + left. exact H.
    + right. split; [exact Hca |]. split; [exact Hadv |].
      split; [| split; [exact H1 | exact H3]].
      unfold mark_lost_passed. rewrite length_firstn.
      assert (Hk : (k < length (sk_write_queue sk))%nat)
        by (apply nth_error_Some; congruence).
      change (rack_reo_wnd (tcp_sk sk))
        with (rack_reo_wnd (clear_advanced (tcp_sk sk))). lia.
Qed.

(** X5.  A segment that comes out of [tcp_rack_mark_lost] different from
    what it was has been judged lost by that very call: the connection
    was in recovery with the [advanced] flag set, the walk passed the
    segment, the segment was not (s)acked and was sent more than the
    reorder window before the reference time; and it comes out as lines
    64-67 leave it. *)
Theorem X5_changed_only_if_expired :
  forall sk k a b,
    nth_error (sk_write_queue sk) k = Some a ->
    nth_error (sk_write_queue (fst (tcp_rack_mark_lost sk))) k = Some b ->
    b <> a ->
    (icsk_ca_state sk <? TCP_CA_Recovery) = false
    /\ rack_advanced (rack (tcp_sk sk)) = true
    /\ (k < length (mark_lost_passed sk))%nat
    /\ expired (rack_reo_wnd (tcp_sk sk)) (tcp_sk sk) a = true
    /\ b = lost_skb (tcp_sk sk) a.
Proof.
  intros sk k a b Ha Hb Hne.
  destruct (mark_lost_nth sk k a Ha) as [H | (H1 & H2 & H3 & H4 & H5)].
  - exfalso. apply Hne. congruence.
  - repeat (split; [assumption |]). congruence.
Qed.

(** X9.  Whatever the call, a segment keeps every flag bit other than
    the lost and the retransmitted bit, a retransmitted bit that was
    clear stays clear, and (the two masks sharing no bit) a lost bit that
    was set stays set. *)
Theorem X9_flags_kept :
  forall sk k a b,
    Z.land TCPCB_LOST TCPCB_SACKED_RETRANS = 0 ->
    nth_error (sk_write_queue sk) k = Some a ->
    nth_error (sk_write_queue (fst (tcp_rack_mark_lost sk))) k = Some b ->
    Z.land (sacked b) (Z.lnot (Z.lor TCPCB_LOST TCPCB_SACKED_RETRANS))
    = Z.land (sacked a) (Z.lnot (Z.lor TCPCB_LOST TCPCB_SACKED_RETRANS))
    /\ (Z.land (sacked a) TCPCB_SACKED_RETRANS = 0 ->
        Z.land (sacked b) TCPCB_SACKED_RETRANS = 0)
    /\ (Z.land (sacked a) TCPCB_LOST = TCPCB_LOST ->
        Z.land (sacked b) TCPCB_LOST = TCPCB_LOST).
Proof.
  intros sk k a b Hd Ha Hb.
  destruct (mark_lost_nth sk k a Ha) as [H | (_ & _ & _ & _ & H)];
    rewrite H in Hb; injection Hb as <-.
  - repeat split; auto.
  - split; [apply lost_skb_other_bits |].
    split; intros _; [apply lost_skb_retrans_clear | apply lost_skb_lost].
    exact Hd.
Qed.

(** ** What a scan leaves alone *)

(** The walk changes [tp] in [retrans_out] only. *)
Lemma mark_lost_walk_tp :
  forall reo_wnd head q i tp mib,
    fst (snd (tcp_for_write_queue (mark_lost_skb reo_wnd) head i q (tp, mib)))
    = set_retrans_out tp
        (retrans_out
           (fst (snd (tcp_for_write_queue (mark_lost_skb reo_wnd) head i q
                        (tp, mib))))).
Proof.
  intros reo head. induction q as [| s rest IH]; intros i tp mib.
  - destruct tp; reflexivity.
  - cbn [tcp_for_write_queue].
    destruct (at_send_head head i); [destruct tp; reflexivity |].
    rewrite mark_lost_skb_eq.
    destruct (expired reo tp s).
    + destruct (void_retrans reo tp s).
      * specialize (IH (S i) (set_retrans_out tp
                                (u32 (retrans_out tp - tcp_skb_pcount s)))
                       (mib + 1)).
        destruct (tcp_for_write_queue _ head (S i) rest _) as [r1 [tp2 m2]].
        cbn [fst snd] in *. rewrite IH. reflexivity.
      * specialize (IH (S i) tp mib).
        destruct (tcp_for_write_queue _ head (S i) rest _) as [r1 [tp2 m2]].
        exact IH.
    + destruct (late_original tp s); [destruct tp; reflexivity |].
      specialize (IH (S i) tp mib).
      destruct (tcp_for_write_queue _ head (S i) rest _) as [r1 [tp2 m2]].
      exact IH.
Qed.

Lemma mark_lost_walk_fixed :
  forall reo_wnd head q i tp mib,
    map skb_fixed
      (fst (tcp_for_write_queue (mark_lost_skb reo_wnd) head i q (tp, mib)))
    = map skb_fixed q.
Proof.
  intros reo head. induction q as [| s rest IH]; intros i tp mib.
  - reflexivity.
  - cbn [tcp_for_write_queue].
    destruct (at_send_head head i); [reflexivity |].
    rewrite mark_lost_skb_eq.
    destruct (expired reo tp s).
    + set (st1 := if void_retrans reo tp s then _ else _).
      destruct st1 as [tp1 mib1]. specialize (IH (S i) tp1 mib1).
      destruct (tcp_for_write_queue _ head (S i) rest _) as [r1 a2].
      cbn [fst map] in *. rewrite IH, lost_skb_fixed. reflexivity.
    + destruct (late_original tp s); [reflexivity |].
      specialize (IH (S i) tp mib).
      destruct (tcp_for_write_queue _ head (S i) rest _) as [r1 a2].
      cbn [fst map] in *. rewrite IH. reflexivity.
Qed.

(** X4.  A call of [tcp_rack_mark_lost] never moves the reference: the
    reference time, its end sequence and RTT, the reordering flag,
    [snd_una] and the minimum RTT are as before, and so are the
    congestion state, the pending timer, the RTO, the congestion hook
    and the send head.  The queue keeps its segments in place with their
    end sequence, send time and packet count. *)
Theorem X4_scan_frame :
  forall sk,
    (rack_mstamp (rack (tcp_sk (fst (tcp_rack_mark_lost sk)))),
     rack_rtt_us (rack (tcp_sk (fst (tcp_rack_mark_lost sk)))),
     rack_end_seq (rack (tcp_sk (fst (tcp_rack_mark_lost sk)))),
     rack_reord (rack (tcp_sk (fst (tcp_rack_mark_lost sk)))))
    = (rack_mstamp (rack (tcp_sk sk)), rack_rtt_us (rack (tcp_sk sk)),
       rack_end_seq (rack (tcp_sk sk)), rack_reord (rack (tcp_sk sk)))
    /\ (snd_una (tcp_sk (fst (tcp_rack_mark_lost sk))),
        tcp_min_rtt (tcp_sk (fst (tcp_rack_mark_lost sk))))
       = (snd_una (tcp_sk sk), tcp_min_rtt (tcp_sk sk))
    /\ (icsk_ca_state (fst (tcp_rack_mark_lost sk)),
        icsk_pending (fst (tcp_rack_mark_lost sk)),
        icsk_rto (fst (tcp_rack_mark_lost sk)),
        cong_control (fst (tcp_rack_mark_lost sk)),
        sk_send_head (fst (tcp_rack_mark_lost sk)))
       = (icsk_ca_state sk, icsk_pending sk, icsk_rto sk, cong_control sk,
          sk_send_head sk)
    /\ map skb_fixed (sk_write_queue (fst (tcp_rack_mark_lost sk)))
       = map skb_fixed (sk_write_queue sk).
Proof.
  intro sk.
  destruct ((icsk_ca_state sk <? TCP_CA_Recovery)
            || negb (rack_advanced (rack (tcp_sk sk)))) eqn:Hg.
  - assert (He : tcp_rack_mark_lost sk = (sk, 0))
      by (unfold tcp_rack_mark_lost; rewrite Hg; reflexivity).
    rewrite He. repeat split; reflexivity.
  - rewrite (mark_lost_scans sk Hg _ eq_refl).
    cbn [fst tcp_sk icsk_ca_state icsk_pending icsk_rto cong_control
           sk_send_head sk_write_queue].
    rewrite mark_lost_walk_tp, mark_lost_walk_fixed.
    repeat split; reflexivity.
Qed.

(** ** Nothing lost is missed *)

Lemma mark_lost_walk_reaches :
  forall reo_wnd head tp0 k q i tp mib a,
    rack_mstamp (rack tp) = rack_mstamp (rack tp0) ->
    snd_una tp = snd_una tp0 ->
    (forall j, (j <= k)%nat -> at_send_head head (i + j) = false) ->
    nth_error q k = Some a ->
    expired reo_wnd tp0 a = true ->
    (forall j b, (j < k)%nat -> nth_error q j = Some b ->
                 skb_mstamp b <= skb_mstamp a) ->
    nth_error (fst (tcp_for_write_queue (mark_lost_skb reo_wnd) head i q
                      (tp, mib))) k
    = Some (lost_skb tp0 a).
Proof.
  intros reo head tp0. induction k as [| k IH];
    intros q i tp mib a Hr Hu Hhead Hnth Hexp Hord;
    (destruct q as [| s rest]; [discriminate |]);
    cbn [tcp_for_write_queue nth_error] in *;
    pose proof (Hhead 0%nat (Nat.le_0_l _)) as Hh0;
    rewrite Nat.add_0_r in Hh0; rewrite Hh0;
    destruct (verdicts_frame reo tp tp0 s Hr Hu) as (He & _ & Hlate & Hl);
    pose proof (mark_lost_skb_frame reo tp mib s) as Hf;
    rewrite mark_lost_skb_eq in *; rewrite He, Hl in *.
  - injection Hnth as ->. rewrite Hexp.
    set (st1 := if void_retrans reo tp a then _ else _).
    destruct st1 as [tp1 mib1].
    destruct (tcp_for_write_queue _ head (S i) rest _). reflexivity.
  - assert (Hgo : forall tp1 mib1,
               rack tp1 = rack tp -> snd_una tp1 = snd_una tp ->
               nth_error (fst (tcp_for_write_queue (mark_lost_skb reo) head
                                 (S i) rest (tp1, mib1))) k
               = Some (lost_skb tp0 a)).
    { intros tp1 mib1 Hr1 Hu1. apply IH; try assumption; try congruence.
      - intros j Hj. replace (S i + j)%nat with (i + S j)%nat by lia.
        apply Hhead. lia.
      - intros j b Hj Hb. apply (Hord (S j) b); [lia | exact Hb]. }
    destruct (expired reo tp0 s).
    + set (st1 := if void_retrans reo tp s then _ else _) in *.
      destruct st1 as [tp1 mib1].
      destruct (Hf tp1 mib1 _ eq_refl) as (Hr1 & Hu1 & _).
      specialize (Hgo tp1 mib1 Hr1 Hu1).
      destruct (tcp_for_write_queue _ head (S i) rest (tp1, mib1)).
      exact Hgo.
    + assert (Hnl : late_original tp s = false).
      { rewrite Hlate. unfold late_original, skb_mstamp_after.
        pose proof (Hord 0%nat s (Nat.lt_0_succ _) eq_refl) as Hsa.
        unfold expired, skb_mstamp_after in Hexp.
        apply andb_prop in Hexp. destruct Hexp as [Hexp _].
        apply andb_prop in Hexp. destruct Hexp as [_ Hold].
        apply Z.ltb_lt in Hold.
        replace (skb_mstamp s <? rack_mstamp (rack tp0)) with true
          by (symmetry; apply Z.ltb_lt; lia).
        cbn [negb]. rewrite andb_false_r. reflexivity. }
      rewrite Hnl. specialize (Hgo tp mib eq_refl eq_refl).
      destruct (tcp_for_write_queue _ head (S i) rest (tp, mib)).
      exact Hgo.
Qed.

(** X6.  In recovery with the [advanced] flag set, a segment before the
    send head that is not (s)acked and was sent more than the reorder
    window before the reference time comes out marked lost, provided
    every segment queued before it was sent no later than it: when the
    queue order is the send order, the early break of line 75 misses
    nothing. *)
Theorem X6_expired_is_marked :
  forall sk k a,
    Z.land TCPCB_LOST TCPCB_SACKED_RETRANS = 0 ->
    (icsk_ca_state sk <? TCP_CA_Recovery) = false ->
    rack_advanced (rack (tcp_sk sk)) = true ->
    (forall h, sk_send_head sk = Some h -> (k < h)%nat) ->
    nth_error (sk_write_queue sk) k = Some a ->
    expired (rack_reo_wnd (tcp_sk sk)) (tcp_sk sk) a = true ->
    (forall j b, (j < k)%nat -> nth_error (sk_write_queue sk) j = Some b ->
                 skb_mstamp b <= skb_mstamp a) ->
    exists b,
      nth_error (sk_write_queue (fst (tcp_rack_mark_lost sk))) k = Some b
      /\ b = lost_skb (tcp_sk sk) a
      /\ Z.land (sacked b) TCPCB_LOST = TCPCB_LOST
      /\ Z.land (sacked b) TCPCB_SACKED_RETRANS = 0.
Proof.
  intros sk k a Hd Hca Hadv Hhead Ha Hexp Hord.
  assert (Hg : (icsk_ca_state sk <? TCP_CA_Recovery)
               || negb (rack_advanced (rack (tcp_sk sk))) = false)
    by (rewrite Hca, Hadv; reflexivity).
  exists (lost_skb (tcp_sk sk) a).
  split; [| split; [reflexivity |
                    split; [apply lost_skb_lost; exact Hd
                           | apply lost_skb_retrans_clear]]].
  rewrite (mark_lost_scans sk Hg _ eq_refl). cbn [fst sk_write_queue].
  apply mark_lost_walk_reaches; try assumption; try reflexivity.
  intros j Hj. cbn [Nat.add]. unfold at_send_head.
  destruct (sk_send_head sk) as [h |] eqn:Hh; [| reflexivity].
  apply Nat.eqb_neq. specialize (Hhead h eq_refl). lia.
Qed.

(** ** What a scan counts *)

Lemma u32_sub_l :
  forall a b c, u32 a = u32 b -> u32 (a - c) = u32 (b - c).
Proof.
  intros a b c H. unfold u32 in *.
  rewrite <- (Zminus_mod_idemp_l a), H, Zminus_mod_idemp_l. reflexivity.
Qed.

Lemma mark_lost_walk_counts :
  forall reo_wnd head tp0 q i tp mib,
    rack_mstamp (rack tp) = rack_mstamp (rack tp0) ->
    snd_una tp = snd_una tp0 ->
    u32 (retrans_out
           (fst (snd (tcp_for_write_queue (mark_lost_skb reo_wnd) head i q
                        (tp, mib)))))
    = u32 (retrans_out tp
           - pcount_sum
               (filter (void_retrans reo_wnd tp0)
                  (firstn (walk_passed (mark_lost_skb reo_wnd) head i q
                             (tp, mib)) q)))
    /\ snd (snd (tcp_for_write_queue (mark_lost_skb reo_wnd) head i q
                   (tp, mib)))
       = mib + Z.of_nat
                 (length
                    (filter (void_retrans reo_wnd tp0)
                       (firstn (walk_passed (mark_lost_skb reo_wnd) head i q
                                  (tp, mib)) q))).
Proof.
  clear TCP_CA_Recovery ICSK_TIME_RETRANS ICSK_TIME_REO_TIMEOUT
    TCP_REO_TIMEOUT_MIN usecs_to_jiffies tcp_rack_detect_loss
    tcp_packets_in_flight collaborator.
  intros reo head tp0. induction q as [| s rest IH]; intros i tp mib Hr Hu.
  - cbn. rewrite Z.sub_0_r, Z.add_0_r. split; reflexivity.
  - cbn [tcp_for_write_queue walk_passed].
    destruct (at_send_head head i);
      [cbn; rewrite Z.sub_0_r, Z.add_0_r; split; reflexivity |].
    destruct (verdicts_frame reo tp tp0 s Hr Hu) as (He & Hv & _ & _).
    pose proof (mark_lost_skb_frame reo tp mib s) as Hf.
    rewrite mark_lost_skb_eq in *.
    assert (Hvoid : void_retrans reo tp0 s = true -> expired reo tp s = true).
    { rewrite <- Hv. unfold void_retrans. intro H.
      apply andb_prop in H. tauto. }
    destruct (expired reo tp s) eqn:Hexp.
    + rewrite Hv in *. destruct (void_retrans reo tp0 s) eqn:Hvd.
      * destruct (Hf _ _ _ eq_refl) as (Hr1 & Hu1 & _).
        specialize (IH (S i)
                      (set_retrans_out tp
                         (u32 (retrans_out tp - tcp_skb_pcount s)))
                      (mib + 1) ltac:(congruence) ltac:(congruence)).
        destruct (tcp_for_write_queue _ head (S i) rest _) as [r1 [tp2 m2]].
        cbn [fst snd firstn filter length pcount_sum fold_right] in *.
        rewrite Hvd. cbn [length pcount_sum fold_right].
        destruct IH as [IH1 IH2]. split.
        -- rewrite IH1. cbn [retrans_out set_retrans_out].
           fold (pcount_sum
                   (filter (void_retrans reo tp0)
                      (firstn (walk_passed (mark_lost_skb reo) head (S i) rest
                                 (set_retrans_out tp
                                    (u32 (retrans_out tp - tcp_skb_pcount s)),
                                  mib + 1)) rest))).
           rewrite (u32_sub_l (u32 (retrans_out tp - tcp_skb_pcount s))
                      (retrans_out tp - tcp_skb_pcount s)).
           ++ f_equal. lia.
           ++ unfold u32. apply Z.mod_mod. lia.
        -- rewrite IH2. lia.
      * specialize (IH (S i) tp mib Hr Hu).
        destruct (tcp_for_write_queue _ head (S i) rest _) as [r1 [tp2 m2]].
        cbn [fst snd firstn filter] in *. rewrite Hvd. exact IH.
    + assert (Hvd : void_retrans reo tp0 s = false).
      { destruct (void_retrans reo tp0 s); [| reflexivity].
        discriminate (Hvoid eq_refl). }
      destruct (late_original tp s);
        [cbn; rewrite Z.sub_0_r, Z.add_0_r; split; reflexivity |].
      specialize (IH (S i) tp mib Hr Hu).
      destruct (tcp_for_write_queue _ head (S i) rest _) as [r1 [tp2 m2]].
      cbn [fst snd firstn filter] in *. rewrite Hvd. exact IH.
Qed.

(** X7.  Past its guard, [tcp_rack_mark_lost] returns the packets of the
    retransmissions it declared void, as a 32-bit count read as [int]:
    the sum of the packet counts of the passed segments that were judged
    lost with the retransmitted flag set.  The statistic grows by the
    number of those segments. *)
Theorem X7_result_counts_void_retransmissions :
  forall sk,
    (icsk_ca_state sk <? TCP_CA_Recovery) = false ->
    rack_advanced (rack (tcp_sk sk)) = true ->
    snd (tcp_rack_mark_lost sk)
    = int_of_u32
        (u32 (pcount_sum
                (filter (void_retrans (rack_reo_wnd (tcp_sk sk)) (tcp_sk sk))
                   (mark_lost_passed sk))))
    /\ mib_lostretransmit (fst (tcp_rack_mark_lost sk))
       = mib_lostretransmit sk
         + Z.of_nat
             (length
                (filter (void_retrans (rack_reo_wnd (tcp_sk sk)) (tcp_sk sk))
                   (mark_lost_passed sk))).
Proof.
  clear ICSK_TIME_RETRANS ICSK_TIME_REO_TIMEOUT TCP_REO_TIMEOUT_MIN
    usecs_to_jiffies tcp_rack_detect_loss tcp_packets_in_flight collaborator.
  intros sk Hca Hadv.
  assert (Hg : (icsk_ca_state sk <? TCP_CA_Recovery)
               || negb (rack_advanced (rack (tcp_sk sk))) = false)
    by (rewrite Hca, Hadv; reflexivity).
  rewrite (mark_lost_scans sk Hg _ eq_refl).
  cbn [fst snd mib_lostretransmit].
  destruct (mark_lost_walk_counts
              (rack_reo_wnd (clear_advanced (tcp_sk sk))) (sk_send_head sk)
              (tcp_sk sk) (sk_write_queue sk) 0 (clear_advanced (tcp_sk sk))
              (mib_lostretransmit sk) eq_refl eq_refl) as [H1 H2].
  split; [| exact H2].
  f_equal. unfold mark_lost_passed.
  change (rack_reo_wnd (tcp_sk sk))
    with (rack_reo_wnd (clear_advanced (tcp_sk sk))).
  set (S := pcount_sum _) in *.
  set (r2 := retrans_out (fst (snd _))) in *.
  change (retrans_out (clear_advanced (tcp_sk sk)))
    with (retrans_out (tcp_sk sk)) in H1.
  unfold u32 in *.
  rewrite <- Zminus_mod_idemp_r, H1, Zminus_mod_idemp_r.
  f_equal. lia.
Qed.

(** ** Scanning again *)

Lemma lost_skb_not_acked :
  forall tp tp2 skb,
    Z.land TCPCB_LOST TCPCB_SACKED_ACKED = 0 ->
    rack_mstamp (rack tp2) = rack_mstamp (rack tp) ->
    snd_una tp2 = snd_una tp ->
    skb_acked tp skb = false ->
    skb_acked tp2 (lost_skb tp skb) = false.
Proof.
  intros tp tp2 skb Hd Hr Hu Hack. unfold skb_acked in *. rewrite Hu.
  apply orb_false_elim in Hack. destruct Hack as [Hseq Hbit].
  pose proof (lost_skb_fixed tp skb) as Hfix. unfold skb_fixed in Hfix.
  injection Hfix as He _ _. rewrite He, Hseq. cbn [orb].
  apply negb_false_iff in Hbit. apply Z.eqb_eq in Hbit.
  apply negb_false_iff. apply Z.eqb_eq.
  unfold lost_skb, tcp_skb_mark_lost_uncond_verify. cbn [sacked set_sacked].
  assert (Hn : forall n, 0 <= n ->
               Z.testbit (sacked skb) n && Z.testbit TCPCB_SACKED_ACKED n
               = false)
    by (intros n Hn; rewrite <- Z.land_spec, Hbit; apply Z.bits_0).
  assert (Hl : forall n, 0 <= n ->
               Z.testbit TCPCB_LOST n && Z.testbit TCPCB_SACKED_ACKED n
               = false)
    by (intros n Hn'; rewrite <- Z.land_spec, Hd; apply Z.bits_0).
  destruct (_ =? 0); cbn [sacked set_sacked]; apply Z.bits_inj';
    intros n Hn0; specialize (Hn n Hn0); specialize (Hl n Hn0);
    rewrite ?Z.land_spec, ?Z.lor_spec, ?Z.lnot_spec, Z.bits_0 by exact Hn0;
    destruct (Z.testbit (sacked skb) n), (Z.testbit TCPCB_LOST n),
      (Z.testbit TCPCB_SACKED_ACKED n), (Z.testbit TCPCB_SACKED_RETRANS n);
    cbn in *; congruence.
Qed.

(** On a segment as a scan left it, the body changes nothing. *)
Lemma mark_lost_skb_again :
  forall reo_wnd tp mib skb st1 skb1 tp2 mib2,
    Z.land TCPCB_LOST TCPCB_SACKED_RETRANS = 0 ->
    Z.land TCPCB_LOST TCPCB_SACKED_ACKED = 0 ->
    mark_lost_skb reo_wnd (tp, mib) skb = Some (st1, skb1) ->
    rack_mstamp (rack tp2) = rack_mstamp (rack tp) ->
    snd_una tp2 = snd_una tp ->
    mark_lost_skb reo_wnd (tp2, mib2) skb1 = Some ((tp2, mib2), skb1).
Proof.
  intros reo tp mib skb st1 skb1 tp2 mib2 Hd Hda Hb Hr Hu.
  rewrite mark_lost_skb_eq in *.
  destruct (verdicts_frame reo tp2 tp skb Hr Hu) as (He & _ & Hlate & _).
  destruct (expired reo tp skb) eqn:Hexp.
  - injection Hb as _ <-.
    assert (Hexp2 : expired reo tp2 (lost_skb tp skb) = true).
    { unfold expired in *.
      apply andb_prop in Hexp. destruct Hexp as [Hexp Hdl].
      apply andb_prop in Hexp. destruct Hexp as [Hack Haf].
      apply negb_true_iff in Hack.
      rewrite (lost_skb_not_acked tp tp2 skb Hda Hr Hu Hack), Hr.
      pose proof (lost_skb_fixed tp skb) as Hfix. unfold skb_fixed in Hfix.
      injection Hfix as _ Hm _. rewrite Hm, Haf, Hdl. reflexivity. }
    assert (Hsame : lost_skb tp2 (lost_skb tp skb) = lost_skb tp skb).
    { unfold lost_skb at 1. unfold tcp_skb_mark_lost_uncond_verify.
      cbn [sacked set_sacked].
      rewrite (lor_already_set _ _ (lost_skb_lost tp skb Hd)).
      rewrite lost_skb_retrans_clear. cbn.
      destruct (lost_skb tp skb); reflexivity. }
    assert (Hnv : void_retrans reo tp2 (lost_skb tp skb) = false).
    { unfold void_retrans, tcp_skb_mark_lost_uncond_verify.
      cbn [sacked set_sacked].
      rewrite (lor_already_set _ _ (lost_skb_lost tp skb Hd)).
      rewrite lost_skb_retrans_clear. apply andb_false_r. }
    rewrite Hexp2, Hnv, Hsame. reflexivity.
  - destruct (late_original tp skb) eqn:Hl; [discriminate |].
    injection Hb as _ <-. rewrite He, Hlate. reflexivity.
Qed.

Lemma mark_lost_walk_again :
  forall reo_wnd head q i tp mib tp2 mib2,
    Z.land TCPCB_LOST TCPCB_SACKED_RETRANS = 0 ->
    Z.land TCPCB_LOST TCPCB_SACKED_ACKED = 0 ->
    rack_mstamp (rack tp2) = rack_mstamp (rack tp) ->
    snd_una tp2 = snd_una tp ->
    tcp_for_write_queue (mark_lost_skb reo_wnd) head i
      (fst (tcp_for_write_queue (mark_lost_skb reo_wnd) head i q (tp, mib)))
      (tp2, mib2)
    = (fst (tcp_for_write_queue (mark_lost_skb reo_wnd) head i q (tp, mib)),
       (tp2, mib2)).
Proof.
  intros reo head. induction q as [| s rest IH];
    intros i tp mib tp2 mib2 Hd Hda Hr Hu.
  - reflexivity.
  - cbn [tcp_for_write_queue].
    destruct (at_send_head head i) eqn:Hh.
    + cbn [fst tcp_for_write_queue]. rewrite Hh. reflexivity.
    + destruct (mark_lost_skb reo (tp, mib) s) as [[[tp1 mib1] s1] |] eqn:Hb.
      * pose proof (mark_lost_skb_again reo tp mib s _ s1 tp2 mib2 Hd Hda Hb
                      Hr Hu) as Hb2.
        destruct (mark_lost_skb_frame reo tp mib s tp1 mib1 s1 Hb)
          as (Hr1 & Hu1 & _).
        specialize (IH (S i) tp1 mib1 tp2 mib2 Hd Hda
                      ltac:(congruence) ltac:(congruence)).
        destruct (tcp_for_write_queue _ head (S i) rest (tp1, mib1))
          as [r1 a2].
        cbn [fst tcp_for_write_queue] in *. rewrite Hh, Hb2, IH.
        reflexivity.
      * cbn [fst tcp_for_write_queue]. rewrite Hh.
        rewrite mark_lost_skb_eq in *.
        destruct (verdicts_frame reo tp2 tp s Hr Hu) as (He & _ & Hl & _).
        rewrite He, Hl.
        destruct (expired reo tp s); [discriminate |].
        destruct (late_original tp s); [reflexivity | discriminate].
Qed.

(** X8.  A scan is idempotent.  After a call of [tcp_rack_mark_lost]
    that went past its guard, raising the [advanced] flag again with the
    reference where it was and calling once more changes nothing but
    that flag, and returns 0 (the lost mask sharing no bit with the
    retransmitted and the sacked mask). *)
Theorem X8_rescan_is_noop :
  forall sk,
    Z.land TCPCB_LOST TCPCB_SACKED_RETRANS = 0 ->
    Z.land TCPCB_LOST TCPCB_SACKED_ACKED = 0 ->
    (icsk_ca_state sk <? TCP_CA_Recovery) = false ->
    rack_advanced (rack (tcp_sk sk)) = true ->
    tcp_rack_mark_lost
      (set_tcp_sk (fst (tcp_rack_mark_lost sk))
         (set_advanced (tcp_sk (fst (tcp_rack_mark_lost sk)))))
    = (fst (tcp_rack_mark_lost sk), 0).
Proof.
  intros sk Hd Hda Hca Hadv.
  assert (Hg : (icsk_ca_state sk <? TCP_CA_Recovery)
               || negb (rack_advanced (rack (tcp_sk sk))) = false)
    by (rewrite Hca, Hadv; reflexivity).
  rewrite (mark_lost_scans sk Hg _ eq_refl). cbn [fst].
  set (reo := rack_reo_wnd (clear_advanced (tcp_sk sk))).
  set (w := tcp_for_write_queue (mark_lost_skb reo) (sk_send_head sk) 0
              (sk_write_queue sk)
              (clear_advanced (tcp_sk sk), mib_lostretransmit sk)).
  assert (Htp : fst (snd w)
                = set_retrans_out (clear_advanced (tcp_sk sk))
                    (retrans_out (fst (snd w))))
    by apply mark_lost_walk_tp.
  destruct w as [q1 [tp1 mib1]] eqn:Hw. cbn [fst snd] in *.
  set (sk2 := set_tcp_sk _ _).
  assert (Hg2 : (icsk_ca_state sk2 <? TCP_CA_Recovery)
                || negb (rack_advanced (rack (tcp_sk sk2))) = false)
    by (cbn; rewrite Hca; reflexivity).
  rewrite (mark_lost_scans sk2 Hg2 _ eq_refl).
  unfold sk2. cbn [set_tcp_sk tcp_sk icsk_ca_state icsk_pending icsk_rto
                     cong_control sk_write_queue sk_send_head
                     mib_lostretransmit].
  assert (Hclr : clear_advanced (set_advanced tp1) = tp1)
    by (rewrite Htp; reflexivity).
  rewrite Hclr.
  assert (Hreo : rack_reo_wnd tp1 = reo) by (rewrite Htp; reflexivity).
  rewrite Hreo.
  assert (Hq1 : q1 = fst (tcp_for_write_queue (mark_lost_skb reo)
                            (sk_send_head sk) 0 (sk_write_queue sk)
                            (clear_advanced (tcp_sk sk),
                             mib_lostretransmit sk)))
    by (fold w; rewrite Hw; reflexivity).
  assert (Hagain : tcp_for_write_queue (mark_lost_skb reo) (sk_send_head sk)
                     0 q1 (tp1, mib1)
                   = (q1, (tp1, mib1))).
  { rewrite Hq1.
    apply mark_lost_walk_again; try assumption; rewrite Htp; reflexivity. }
  rewrite Hagain. cbn [fst snd].
  replace (retrans_out (set_advanced tp1) - retrans_out tp1) with 0
    by (cbn; lia).
  reflexivity.
Qed.

(** ** More on tcp_rack_advance *)

(** X1.  Once a report of a segment has changed the connection,
    reporting the same segment again changes nothing more, whatever the
    clock reads at the second call (the send time being non-zero, or the
    RTT reported the same).  A report that was refused has changed
    nothing, so a later report of the same segment is judged afresh
    against the clock of its own call. *)
Theorem X1_repeat_after_accept :
  forall tp sacked end_seq xmit_time now1 rtt_us1 now2 rtt_us2,
    (xmit_time <> 0 \/ rtt_us2 = rtt_us1 ->
     tcp_rack_advance tp sacked end_seq xmit_time now1 rtt_us1 <> tp ->
     tcp_rack_advance
       (tcp_rack_advance tp sacked end_seq xmit_time now1 rtt_us1)
       sacked end_seq xmit_time now2 rtt_us2
     = tcp_rack_advance tp sacked end_seq xmit_time now1 rtt_us1)
    /\ (tcp_rack_advance tp sacked end_seq xmit_time now1 rtt_us1 = tp ->
        tcp_rack_advance
          (tcp_rack_advance tp sacked end_seq xmit_time now1 rtt_us1)
          sacked end_seq xmit_time now2 rtt_us2
        = tcp_rack_advance tp sacked end_seq xmit_time now2 rtt_us2).
Proof.
  intros tp sk es xt n1 r1 n2 r2. split.
  - intros Hx Hch.
    assert (Hacc : tcp_rack_advance tp sk es xt n1 r1
                   = set_rack tp (mk_rack xt r1 es true
                                          (rack_reord (rack tp)))).
    { unfold tcp_rack_advance in *.
      destruct (negb (rack_mstamp (rack tp) =? 0)
                && negb (skb_mstamp_after xt (rack_mstamp (rack tp))));
        [contradiction Hch; reflexivity |].
      destruct (negb (Z.land sk TCPCB_RETRANS =? 0)
                && (skb_mstamp_us_delta n1 xt <? tcp_min_rtt tp));
        [contradiction Hch; reflexivity | reflexivity]. }
    rewrite Hacc. unfold tcp_rack_advance, skb_mstamp_after.
    cbn [rack set_rack rack_mstamp tcp_min_rtt rack_reord].
    rewrite Z.ltb_irrefl. cbn [negb]. rewrite andb_true_r.
    destruct (Z.eqb_spec xt 0) as [E | E]; cbn [negb]; [| reflexivity].
    destruct Hx as [Hx | ->]; [contradiction |].
    destruct (_ && _); reflexivity.
  - intro He. rewrite He. reflexivity.
Qed.

Lemma advance_min_rtt :
  forall tp sacked end_seq xmit_time now rtt_us,
    tcp_min_rtt (tcp_rack_advance tp sacked end_seq xmit_time now rtt_us)
    = tcp_min_rtt tp.
Proof.
  intros. unfold tcp_rack_advance.
  destruct (_ && _); [reflexivity |]. destruct (_ && _); reflexivity.
Qed.

Lemma advance_mstamp_max :
  forall tp sacked end_seq xmit_time now rtt_us,
    0 <= rack_mstamp (rack tp) ->
    0 < xmit_time ->
    Z.land sacked TCPCB_RETRANS = 0
    \/ tcp_min_rtt tp <= skb_mstamp_us_delta now xmit_time ->
    rack_mstamp (rack (tcp_rack_advance tp sacked end_seq xmit_time now
                         rtt_us))
    = Z.max (rack_mstamp (rack tp)) xmit_time.
Proof.
  intros tp sk es xt now rtt H0 Hx Hok.
  unfold tcp_rack_advance, skb_mstamp_after.
  assert (G2 : negb (Z.land sk TCPCB_RETRANS =? 0)
               && (skb_mstamp_us_delta now xt <? tcp_min_rtt tp) = false).
  { destruct Hok as [H | H].
    - apply Z.eqb_eq in H. rewrite H. reflexivity.
    - apply Z.ltb_ge in H. rewrite H. apply andb_false_r. }
  rewrite G2.
  destruct (Z.eqb_spec (rack_mstamp (rack tp)) 0) as [E | E];
    destruct (Z.ltb_spec (rack_mstamp (rack tp)) xt); cbn; lia.
Qed.

(** X2.  After a batch of calls for segments sent at positive times,
    each an original or a retransmission whose elapsed time reaches
    [tcp_min_rtt], the reference time is the latest of the reference
    time before the batch and the send times of the batch: "the most
    recently (re)sent time among the (s)acked packets". *)
Theorem X2_reference_is_latest_send_time :
  forall cs tp,
    0 <= rack_mstamp (rack tp) ->
    Forall (fun c =>
              0 < ac_xmit_time c
              /\ (Z.land (ac_sacked c) TCPCB_RETRANS = 0
                  \/ tcp_min_rtt tp
                     <= skb_mstamp_us_delta (ac_now c) (ac_xmit_time c)))
           cs ->
    rack_mstamp (rack (advance_calls tp cs))
    = fold_left Z.max (map ac_xmit_time cs) (rack_mstamp (rack tp)).
Proof.
  unfold advance_calls.
  induction cs as [| c cs IH]; intros tp H0 Hcs; [reflexivity |].
  inversion Hcs as [| c' cs' [Hx Hok] Hrest]; subst.
  cbn [fold_left map].
  rewrite <- (advance_mstamp_max tp (ac_sacked c) (ac_end_seq c)
                (ac_xmit_time c) (ac_now c) (ac_rtt_us c) H0 Hx Hok).
  apply IH.
  - rewrite (advance_mstamp_max tp _ _ _ _ _ H0 Hx Hok). lia.
  - rewrite advance_min_rtt. exact Hrest.
Qed.

Lemma advance_flag :
  forall tp sacked end_seq xmit_time now rtt_us,
    (tcp_rack_advance tp sacked end_seq xmit_time now rtt_us = tp
     \/ rack_advanced
          (rack (tcp_rack_advance tp sacked end_seq xmit_time now rtt_us))
        = true)
    /\ (snd_una (tcp_rack_advance tp sacked end_seq xmit_time now rtt_us),
        retrans_out (tcp_rack_advance tp sacked end_seq xmit_time now rtt_us),
        tcp_min_rtt (tcp_rack_advance tp sacked end_seq xmit_time now rtt_us),
        rack_reord
          (rack (tcp_rack_advance tp sacked end_seq xmit_time now rtt_us)))
       = (snd_una tp, retrans_out tp, tcp_min_rtt tp, rack_reord (rack tp)).
Proof.
  intros. unfold tcp_rack_advance.
  destruct (_ && _); [split; [left |]; reflexivity |].
  destruct (_ && _); split; try reflexivity; [left | right]; reflexivity.
Qed.

(** X3.  A batch of calls changes nothing outside [tp->rack] and leaves
    the reordering flag alone; it never clears the [advanced] flag; and
    if it changes [tp->rack] at all, the flag is set when it ends, so
    that the next scan is not skipped. *)
Theorem X3_advance_raises_flag :
  forall cs tp,
    (snd_una (advance_calls tp cs), retrans_out (advance_calls tp cs),
     tcp_min_rtt (advance_calls tp cs),
     rack_reord (rack (advance_calls tp cs)))
    = (snd_una tp, retrans_out tp, tcp_min_rtt tp, rack_reord (rack tp))
    /\ (rack_advanced (rack tp) = true ->
        rack_advanced (rack (advance_calls tp cs)) = true)
    /\ (rack (advance_calls tp cs) <> rack tp ->
        rack_advanced (rack (advance_calls tp cs)) = true).
Proof.
  unfold advance_calls.
  induction cs as [| c cs IH]; intro tp.
  - cbn. split; [reflexivity |]. split; [auto | intro H; contradiction].
  - cbn [fold_left].
    destruct (advance_flag tp (ac_sacked c) (ac_end_seq c) (ac_xmit_time c)
                (ac_now c) (ac_rtt_us c)) as [Hone Hfr].
    destruct (IH (tcp_rack_advance tp (ac_sacked c) (ac_end_seq c)
                    (ac_xmit_time c) (ac_now c) (ac_rtt_us c)))
      as (Hfr' & Hkeep & Hch).
    split; [rewrite Hfr'; exact Hfr |].
    split.
    + intro Hadv. destruct Hone as [He | Ht].
      * rewrite He in *. auto.
      * auto.
    + intro Hne. destruct Hone as [He | Ht].
      * rewrite He in *. auto.
      * auto.
Qed.

(** ** More on the reorder window *)

(** X12.  For a 32-bit [tcp_min_rtt] the reorder window lies between
    1000 and 2^30 - 1: the [max] of line 44 stays within [u32], far
    enough from its end for a delay to be added. *)
Theorem X12_reorder_window_range :
  forall tp,
    0 <= tcp_min_rtt tp < 2 ^ 32 ->
    1000 <= rack_reo_wnd tp < 2 ^ 30
    /\ u32 (rack_reo_wnd tp) = rack_reo_wnd tp.
Proof.
  intros tp Hm.
  assert (H : 1000 <= rack_reo_wnd tp < 2 ^ 30).
  { unfold rack_reo_wnd. destruct (_ && _); [| lia].
    rewrite Z.shiftr_div_pow2 by lia.
    assert (0 <= tcp_min_rtt tp / 2 ^ 2 < 2 ^ 30).
    { split; [apply Z.div_pos; lia |].
      apply Z.div_lt_upper_bound; lia. }
    lia. }
  split; [exact H |]. unfold u32. apply Z.mod_small. lia.
Qed.

(** ** More on the drivers *)

(** X10.  A call of [tcp_rack_mark_lost] (lines 81-97) adds at most one
    request to those made before, and it can only be
    [inet_csk_reset_xmit_timer] for the kind [ICSK_TIME_REO_TIMEOUT],
    with a delay that fits 32 bits and the RTO the detection step left as
    bound; with the [advanced] flag clear it adds none. *)
Theorem X10_at_most_the_reo_timer :
  forall now sk log,
    exists added,
      snd (snd (tcp_rack_mark_lost_at now (sk, log))) = log ++ added
      /\ (added = []
          \/ exists delay,
               0 <= delay < 2 ^ 32
               /\ rack_advanced (rack (tcp_sk sk)) = true
               /\ added
                  = [inet_csk_reset_xmit_timer ICSK_TIME_REO_TIMEOUT delay
                       (icsk_rto
                          (fst (tcp_rack_detect_loss
                                  (set_tcp_sk sk
                                     (clear_advanced (tcp_sk sk)))
                                  (Some now))))]).
Proof.
  intros now sk log.
  unfold tcp_rack_mark_lost_at, bind, gets, ret, modify, detect_loss, call.
  cbn [fst snd].
  destruct (rack_advanced (rack (tcp_sk sk))); cbn [negb fst snd].
  - destruct (tcp_rack_detect_loss _ (Some now)) as [sk1 timeout].
    cbn [fst snd].
    destruct (timeout =? 0); cbn [negb fst snd].
    + exists []. rewrite app_nil_r. split; [reflexivity | left; reflexivity].
    + eexists. split; [reflexivity |]. right.
      eexists. split; [| split; reflexivity].
      unfold u32. apply Z.mod_pos_bound. lia.
  - exists []. rewrite app_nil_r. split; [reflexivity | left; reflexivity].
Qed.

(** The run of [tcp_rack_reo_timeout], by the two tests it makes. *)
Lemma reo_timeout_run :
  forall sk log,
    tcp_rack_reo_timeout (sk, log)
    = (tt,
       (serve
          ((if tcp_packets_in_flight (tcp_sk sk)
               =? tcp_packets_in_flight
                    (tcp_sk (fst (tcp_rack_detect_loss sk None)))
            then [] else recovery_requests (fst (tcp_rack_detect_loss sk None)))
           ++ (if icsk_pending
                    (serve
                       (if tcp_packets_in_flight (tcp_sk sk)
                           =? tcp_packets_in_flight
                                (tcp_sk (fst (tcp_rack_detect_loss sk None)))
                        then []
                        else recovery_requests
                               (fst (tcp_rack_detect_loss sk None)))
                       (fst (tcp_rack_detect_loss sk None)))
                  =? ICSK_TIME_RETRANS
               then [] else [tcp_rearm_rto]))
          (fst (tcp_rack_detect_loss sk None)),
        log
        ++ (if tcp_packets_in_flight (tcp_sk sk)
               =? tcp_packets_in_flight
                    (tcp_sk (fst (tcp_rack_detect_loss sk None)))
            then [] else recovery_requests (fst (tcp_rack_detect_loss sk None)))
        ++ (if icsk_pending
                 (serve
                    (if tcp_packets_in_flight (tcp_sk sk)
                        =? tcp_packets_in_flight
                             (tcp_sk (fst (tcp_rack_detect_loss sk None)))
                     then []
                     else recovery_requests
                            (fst (tcp_rack_detect_loss sk None)))
                    (fst (tcp_rack_detect_loss sk None)))
               =? ICSK_TIME_RETRANS
            then [] else [tcp_rearm_rto]))).
Proof.
  intros sk log.
  unfold tcp_rack_reo_timeout, bind, gets, ret, detect_loss, call.
  cbn [fst snd].
  destruct (tcp_rack_detect_loss sk None) as [sk1 timeout]. cbn [fst snd].
  unfold recovery_requests, serve.
  destruct (tcp_packets_in_flight (tcp_sk sk)
            =? tcp_packets_in_flight (tcp_sk sk1)); simpl.
  - destruct (icsk_pending sk1 =? ICSK_TIME_RETRANS); simpl;
      rewrite ?app_nil_r; reflexivity.
  - destruct (icsk_ca_state sk1 =? TCP_CA_Recovery); simpl.
    + destruct (icsk_pending _ =? ICSK_TIME_RETRANS); simpl;
        rewrite <- ?app_assoc; reflexivity.
    + destruct (cong_control (collaborator (tcp_enter_recovery false) sk1));
        simpl;
        destruct (icsk_pending _ =? ICSK_TIME_RETRANS); simpl;
        rewrite <- ?app_assoc; reflexivity.
Qed.

(** X11.  Whatever the detection step does, [tcp_rack_reo_timeout] asks
    for retransmission exactly when the in-flight count after the step
    differs from the count before it, higher or lower; it asks for entry
    into recovery exactly when, besides, the state is not
    [TCP_CA_Recovery]; and a window reduction is only ever the
    one-segment one, asked for together with entry into recovery and
    with no [cong_control] hook set. *)
Theorem X11_requests_on_any_change :
  forall sk,
    (In tcp_xmit_retransmit_queue (snd (snd (tcp_rack_reo_timeout (sk, [])))) <->
     tcp_packets_in_flight (tcp_sk (fst (tcp_rack_detect_loss sk None)))
     <> tcp_packets_in_flight (tcp_sk sk))
    /\ (forall ece,
           In (tcp_enter_recovery ece)
              (snd (snd (tcp_rack_reo_timeout (sk, [])))) <->
           ece = false
           /\ tcp_packets_in_flight
                (tcp_sk (fst (tcp_rack_detect_loss sk None)))
              <> tcp_packets_in_flight (tcp_sk sk)
           /\ icsk_ca_state (fst (tcp_rack_detect_loss sk None))
              <> TCP_CA_Recovery)
    /\ (forall n f,
           In (tcp_cwnd_reduction n f)
              (snd (snd (tcp_rack_reo_timeout (sk, [])))) ->
           (n, f) = (1, 0)
           /\ In (tcp_enter_recovery false)
                 (snd (snd (tcp_rack_reo_timeout (sk, []))))
           /\ cong_control
                (collaborator (tcp_enter_recovery false)
                   (fst (tcp_rack_detect_loss sk None))) = false).
Proof.
  clear TCPCB_SACKED_ACKED TCPCB_SACKED_RETRANS TCPCB_LOST TCPCB_RETRANS
    ICSK_TIME_REO_TIMEOUT TCP_REO_TIMEOUT_MIN usecs_to_jiffies.
  intro sk. rewrite reo_timeout_run. cbn [fst snd app].
  set (sk1 := fst (tcp_rack_detect_loss sk None)).
  unfold recovery_requests.
  destruct (Z.eqb_spec (tcp_packets_in_flight (tcp_sk sk))
              (tcp_packets_in_flight (tcp_sk sk1))) as [E | E];
    destruct (Z.eqb_spec (icsk_ca_state sk1) TCP_CA_Recovery) as [C | C];
    destruct (cong_control (collaborator (tcp_enter_recovery false) sk1))
      eqn:Hk;
    cbn [app serve fold_left];
    destruct (icsk_pending _ =? ICSK_TIME_RETRANS);
    cbn [app In];
    (split; [| split]);
    try (split; intro H);
    try (intros n f H);
    try (intros ece; split; intro H);
    repeat match goal with
           | H : _ \/ _ |- _ => destruct H
           | H : _ /\ _ |- _ => destruct H
           | H : False |- _ => contradiction
           | H : tcp_xmit_retransmit_queue = _ |- _ => discriminate H
           | H : tcp_rearm_rto = _ |- _ => discriminate H
           | H : tcp_enter_recovery _ = _ |- _ =>
               first [discriminate H | injection H as H]
           | H : tcp_cwnd_reduction _ _ = _ |- _ =>
               first [discriminate H | injection H as ? ?]
           end;
    subst; try congruence; try tauto; auto 8.
Qed.

(** ** The retransmission counter *)

Lemma pcount_sum_nonneg :
  forall l, Forall (fun skb => 0 <= tcp_skb_pcount skb) l -> 0 <= pcount_sum l.
Proof.
  clear TCPCB_SACKED_ACKED TCPCB_SACKED_RETRANS TCPCB_LOST TCPCB_RETRANS
    TCP_CA_Recovery ICSK_TIME_RETRANS ICSK_TIME_REO_TIMEOUT
    TCP_REO_TIMEOUT_MIN usecs_to_jiffies tcp_rack_detect_loss
    tcp_packets_in_flight collaborator.
  induction l as [| s l IH]; intro H; cbn; [lia |].
  inversion H; subst. specialize (IH ltac:(assumption)).
  unfold pcount_sum in IH. lia.
Qed.

Lemma retrans_packets_nonneg :
  forall q, Forall (fun skb => 0 <= tcp_skb_pcount skb) q ->
            0 <= retrans_packets q.
Proof.
  clear TCPCB_SACKED_ACKED TCPCB_LOST TCPCB_RETRANS
    TCP_CA_Recovery ICSK_TIME_RETRANS ICSK_TIME_REO_TIMEOUT
    TCP_REO_TIMEOUT_MIN usecs_to_jiffies tcp_rack_detect_loss
    tcp_packets_in_flight collaborator.
  intros q H. apply pcount_sum_nonneg.
  apply Forall_forall. intros x Hx. apply filter_In in Hx.
  rewrite Forall_forall in H. apply H. tauto.
Qed.

Lemma retrans_packets_cons :
  forall s q,
    retrans_packets (s :: q)
    = (if retrans_flagged s then tcp_skb_pcount s else 0) + retrans_packets q.
Proof.
  intros s q. unfold retrans_packets. cbn [filter].
  destruct (retrans_flagged s); reflexivity.
Qed.

Lemma mark_lost_walk_retrans_out :
  forall reo_wnd head q i tp mib,
    Z.land TCPCB_LOST TCPCB_SACKED_RETRANS = 0 ->
    Forall (fun skb => 0 <= tcp_skb_pcount skb) q ->
    retrans_packets q <= retrans_out tp < 2 ^ 32 ->
    retrans_out
      (fst (snd (tcp_for_write_queue (mark_lost_skb reo_wnd) head i q
                   (tp, mib))))
    = retrans_out tp - retrans_packets q
      + retrans_packets
          (fst (tcp_for_write_queue (mark_lost_skb reo_wnd) head i q
                  (tp, mib))).
Proof.
  clear TCP_CA_Recovery ICSK_TIME_RETRANS ICSK_TIME_REO_TIMEOUT
    TCP_REO_TIMEOUT_MIN usecs_to_jiffies tcp_rack_detect_loss
    tcp_packets_in_flight collaborator.
  intros reo head. induction q as [| s rest IH]; intros i tp mib Hd Hp Hr.
  - cbn. lia.
  - cbn [tcp_for_write_queue].
    destruct (at_send_head head i); [cbn [fst snd]; lia |].
    inversion Hp as [| s' rest' Hps Hprest]; subst.
    pose proof (retrans_packets_nonneg rest Hprest) as Hnn.
    rewrite retrans_packets_cons in Hr.
    rewrite mark_lost_skb_eq.
    assert (Hflag : void_retrans reo tp s
                    = expired reo tp s && retrans_flagged s).
    { unfold void_retrans, retrans_flagged, tcp_skb_mark_lost_uncond_verify.
      cbn [sacked set_sacked]. rewrite (land_lor_disjoint _ _ _ Hd).
      reflexivity. }
    destruct (expired reo tp s).
    + rewrite Hflag. cbn [andb].
      assert (Hclr : retrans_flagged (lost_skb tp s) = false).
      { unfold retrans_flagged. rewrite lost_skb_retrans_clear. reflexivity. }
      destruct (retrans_flagged s) eqn:Hfs.
      * assert (Hu : u32 (retrans_out tp - tcp_skb_pcount s)
                     = retrans_out tp - tcp_skb_pcount s)
          by (unfold u32; apply Z.mod_small; lia).
        rewrite Hu.
        specialize (IH (S i)
                      (set_retrans_out tp (retrans_out tp - tcp_skb_pcount s))
                      (mib + 1) Hd Hprest).
        cbn [retrans_out set_retrans_out] in IH.
        specialize (IH ltac:(lia)).
        destruct (tcp_for_write_queue _ head (S i) rest _) as [r1 [tp2 m2]].
        cbn [fst snd] in *.
        rewrite !retrans_packets_cons, Hfs, Hclr, IH. lia.
      * specialize (IH (S i) tp mib Hd Hprest ltac:(lia)).
        destruct (tcp_for_write_queue _ head (S i) rest _) as [r1 [tp2 m2]].
        cbn [fst snd] in *.
        rewrite !retrans_packets_cons, Hfs, Hclr, IH. lia.
    + destruct (late_original tp s); [cbn [fst snd]; lia |].
      specialize (IH (S i) tp mib Hd Hprest
                    ltac:(destruct (retrans_flagged s); lia)).
      destruct (tcp_for_write_queue _ head (S i) rest _) as [r1 [tp2 m2]].
      cbn [fst snd] in *.
      rewrite !retrans_packets_cons, IH. lia.
Qed.

(** The scan never adds a retransmitted flag. *)
Lemma mark_lost_walk_flagged_le :
  forall reo_wnd head q i tp mib,
    Forall (fun skb => 0 <= tcp_skb_pcount skb) q ->
    retrans_packets
      (fst (tcp_for_write_queue (mark_lost_skb reo_wnd) head i q (tp, mib)))
    <= retrans_packets q.
Proof.
  clear TCP_CA_Recovery ICSK_TIME_RETRANS ICSK_TIME_REO_TIMEOUT
    TCP_REO_TIMEOUT_MIN usecs_to_jiffies tcp_rack_detect_loss
    tcp_packets_in_flight collaborator.
  intros reo head. induction q as [| s rest IH]; intros i tp mib Hp.
  - cbn. lia.
  - inversion Hp as [| s' rest' Hps Hprest]; subst.
    cbn [tcp_for_write_queue].
    destruct (at_send_head head i); [cbn [fst]; lia |].
    rewrite mark_lost_skb_eq.
    destruct (expired reo tp s).
    + set (st1 := if void_retrans reo tp s then _ else _).
      destruct st1 as [tp1 mib1].
      specialize (IH (S i) tp1 mib1 Hprest).
      destruct (tcp_for_write_queue _ head (S i) rest _) as [r1 a2].
      cbn [fst] in *. rewrite !retrans_packets_cons.
      unfold retrans_flagged at 1. rewrite lost_skb_retrans_clear.
      cbn [Z.eqb negb]. destruct (retrans_flagged s); lia.
    + destruct (late_original tp s); [cbn [fst]; lia |].
      specialize (IH (S i) tp mib Hprest).
      destruct (tcp_for_write_queue _ head (S i) rest _) as [r1 a2].
      cbn [fst] in *. rewrite !retrans_packets_cons. lia.
Qed.

(** X13.  [tcp_rack_mark_lost] keeps [retrans_out] in step with the
    queue: if before the call it is the number of packets of the
    segments carrying the retransmitted flag (packet counts being
    non-negative, the counter a [u32], the lost and retransmitted masks
    sharing no bit), then it is so after the call, and the result is the
    number by which it went down, which is not negative. *)
Theorem X13_retrans_out_in_step :
  forall sk,
    Z.land TCPCB_LOST TCPCB_SACKED_RETRANS = 0 ->
    Forall (fun skb => 0 <= tcp_skb_pcount skb) (sk_write_queue sk) ->
    retrans_out (tcp_sk sk) = retrans_packets (sk_write_queue sk) ->
    retrans_out (tcp_sk sk) < 2 ^ 31 ->
    retrans_out (tcp_sk (fst (tcp_rack_mark_lost sk)))
    = retrans_packets (sk_write_queue (fst (tcp_rack_mark_lost sk)))
    /\ snd (tcp_rack_mark_lost sk)
       = retrans_out (tcp_sk sk)
         - retrans_out (tcp_sk (fst (tcp_rack_mark_lost sk)))
    /\ 0 <= snd (tcp_rack_mark_lost sk).
Proof.
  clear ICSK_TIME_RETRANS ICSK_TIME_REO_TIMEOUT TCP_REO_TIMEOUT_MIN
    usecs_to_jiffies tcp_rack_detect_loss tcp_packets_in_flight collaborator.
  intros sk Hd Hp Hinv Hlt.
  pose proof (retrans_packets_nonneg _ Hp) as Hnn.
  destruct ((icsk_ca_state sk <? TCP_CA_Recovery)
            || negb (rack_advanced (rack (tcp_sk sk)))) eqn:Hg.
  - assert (He : tcp_rack_mark_lost sk = (sk, 0))
      by (unfold tcp_rack_mark_lost; rewrite Hg; reflexivity).
    rewrite He. cbn [fst snd]. repeat split; [exact Hinv | lia | lia].
  - rewrite (mark_lost_scans sk Hg _ eq_refl).
    cbn [fst snd tcp_sk sk_write_queue].
    pose proof (mark_lost_walk_retrans_out
                  (rack_reo_wnd (clear_advanced (tcp_sk sk)))
                  (sk_send_head sk) (sk_write_queue sk) 0
                  (clear_advanced (tcp_sk sk)) (mib_lostretransmit sk)
                  Hd Hp) as Hw.
    change (retrans_out (clear_advanced (tcp_sk sk)))
      with (retrans_out (tcp_sk sk)) in Hw.
    specialize (Hw ltac:(lia)).
    set (w := tcp_for_write_queue _ _ _ _ _) in *.
    assert (Hq : 0 <= retrans_packets (fst w)).
    { apply retrans_packets_nonneg.
      apply Forall_forall. intros x Hx.
      assert (Hin : In (skb_fixed x) (map skb_fixed (fst w)))
        by (apply in_map; exact Hx).
      unfold w in Hin. rewrite mark_lost_walk_fixed in Hin.
      apply in_map_iff in Hin. destruct Hin as (y & Hy & Hyin).
      rewrite Forall_forall in Hp. specialize (Hp y Hyin).
      unfold skb_fixed in Hy. injection Hy as _ _ Hpc. lia. }
    assert (Hle : retrans_out (fst (snd w)) <= retrans_out (tcp_sk sk)).
    { pose proof (mark_lost_walk_flagged_le
                    (rack_reo_wnd (clear_advanced (tcp_sk sk)))
                    (sk_send_head sk) (sk_write_queue sk) 0
                    (clear_advanced (tcp_sk sk)) (mib_lostretransmit sk) Hp)
        as Hsub.
      fold w in Hsub. rewrite Hw, Hinv. lia. }
    split; [rewrite Hw, Hinv; lia |].
    assert (Hr : int_of_u32 (u32 (retrans_out (tcp_sk sk)
                                  - retrans_out (fst (snd w))))
                 = retrans_out (tcp_sk sk) - retrans_out (fst (snd w))).
    { assert (0 <= retrans_out (fst (snd w))) by (rewrite Hw, Hinv; lia).
      unfold u32. rewrite Z.mod_small by lia.
      unfold int_of_u32.
      destruct (Z.ltb_spec (retrans_out (tcp_sk sk)
                            - retrans_out (fst (snd w))) (2 ^ 31));
        [reflexivity | lia]. }
    rewrite Hr. split; [reflexivity | lia].
Qed.

(** ** What the reference records *)

(** X14.  The reference time, its end sequence and its RTT always come
    from one and the same call: after a batch they are those the
    connection had before it, or those of one call of the batch. *)
Theorem X14_reference_from_one_call :
  forall cs tp,
    recorded (rack (advance_calls tp cs)) = recorded (rack tp)
    \/ exists c,
         In c cs
         /\ recorded (rack (advance_calls tp cs))
            = (ac_xmit_time c, ac_end_seq c, ac_rtt_us c).
Proof.
  unfold advance_calls.
  induction cs as [| c cs IH]; intro tp; [left; reflexivity |].
  cbn [fold_left].
  destruct (IH (tcp_rack_advance tp (ac_sacked c) (ac_end_seq c)
                  (ac_xmit_time c) (ac_now c) (ac_rtt_us c)))
    as [H | (c' & Hin & H)].
  - rewrite H.
    destruct (advance_cases tp (ac_sacked c) (ac_end_seq c) (ac_xmit_time c)
                (ac_now c) (ac_rtt_us c)) as [He | (He & _)];
      rewrite He; [left; reflexivity |].
    right. exists c. split; [left; reflexivity | reflexivity].
  - right. exists c'. split; [right; exact Hin | exact H].
Qed.

End Rack.

(** * The theorems on a concrete connection *)

Import Linux.

(** With [tcp_min_rtt] unknown, a retransmitted segment sent after the
    reference time and acknowledged 500 microseconds later is not
    accepted: the call leaves the socket as it was and the reference
    time stays at 15000. *)
Lemma C1_unknown_min_rtt_rejected :
  tcp_min_rtt Example.tp0 = U32_MAX
  /\ Z.land 2 TCPCB_RETRANS <> 0
  /\ rack_mstamp (rack Example.tp0) < 16000
  /\ tcp_rack_advance TCPCB_RETRANS Example.tp0 2 2000 16000 16500 500
     = Example.tp0
  /\ rack_mstamp
       (rack (tcp_rack_advance TCPCB_RETRANS Example.tp0 2 2000 16000
                16500 500))
     <> 16000.
Proof. vm_compute. repeat split; congruence. Qed.

Lemma C1_retransmitted_gate_witness :
  Z.land 2 TCPCB_RETRANS <> 0
  /\ (skb_mstamp_us_delta 16500 16000 < tcp_min_rtt Example.tp0 ->
      tcp_rack_advance TCPCB_RETRANS Example.tp0 2 2000 16000 16500 500
      = Example.tp0).
Proof.
  split; [vm_compute; discriminate |].
  apply (C1_retransmitted_gate TCPCB_RETRANS Example.tp0 2 2000 16000
           16500 500).
  vm_compute; discriminate.
Defined.

Lemma C2_early_stop_witness :
  walk_passed
    (mark_lost_skb TCPCB_SACKED_ACKED TCPCB_SACKED_RETRANS TCPCB_LOST
       TCPCB_RETRANS 1000)
    (Some 4%nat) 0 [Example.old_retrans; Example.recent] (Example.tp0, 0)
  = 2%nat
  /\ at_send_head (Some 4%nat) 2 = false
  /\ skb_acked TCPCB_SACKED_ACKED Example.tp0 Example.late_retrans = false
  /\ rack_mstamp (rack Example.tp0) <= skb_mstamp Example.late_retrans
  /\ Z.land (sacked Example.late_retrans) TCPCB_RETRANS <> 0
  /\ fst (tcp_for_write_queue
            (mark_lost_skb TCPCB_SACKED_ACKED TCPCB_SACKED_RETRANS
               TCPCB_LOST TCPCB_RETRANS 1000)
            (Some 4%nat) 0 (Example.sent ++ [Example.unsent])
            (Example.tp0, 0))
     = [mk_skb 100 TCPCB_LOST 0 1; Example.recent; Example.late_retrans;
        Example.late_orig; Example.unsent].
Proof.
  assert (H0 : walk_passed
                 (mark_lost_skb TCPCB_SACKED_ACKED TCPCB_SACKED_RETRANS
                    TCPCB_LOST TCPCB_RETRANS 1000)
                 (Some 4%nat) 0 [Example.old_retrans; Example.recent]
                 (Example.tp0, 0)
               = length [Example.old_retrans; Example.recent])
    by reflexivity.
  assert (H1 : at_send_head (Some 4%nat) 2 = false) by reflexivity.
  assert (H2 : skb_acked TCPCB_SACKED_ACKED
                 (set_retrans_out Example.tp0 1) Example.late_retrans
               = false) by reflexivity.
  assert (H3 : rack_mstamp (rack (set_retrans_out Example.tp0 1))
               <= skb_mstamp Example.late_retrans)
    by (vm_compute; discriminate).
  assert (H4 : Z.land (sacked Example.late_retrans) TCPCB_RETRANS <> 0)
    by (vm_compute; discriminate).
  split; [exact H0 |]. split; [exact H1 |]. split; [exact H2 |].
  split; [exact H3 |]. split; [exact H4 |].
  change (Example.sent ++ [Example.unsent])
    with ([Example.old_retrans; Example.recent]
          ++ Example.late_retrans :: [Example.late_orig; Example.unsent]).
  rewrite (proj2 (C2_early_stop TCPCB_SACKED_ACKED TCPCB_SACKED_RETRANS
                    TCPCB_LOST TCPCB_RETRANS 1000 (Some 4%nat) 0%nat
                    [Example.old_retrans; Example.recent]
                    Example.late_retrans [Example.late_orig; Example.unsent]
                    Example.tp0 0
                    [mk_skb 100 TCPCB_LOST 0 1; Example.recent]
                    (set_retrans_out Example.tp0 1) 1
                    H0 eq_refl H1 H2 H3) H4).
  reflexivity.
Defined.

Lemma C3_mark_lost_witness :
  Z.land TCPCB_LOST TCPCB_SACKED_RETRANS = 0
  /\ at_send_head (Some 4%nat) 0 = false
  /\ skb_acked TCPCB_SACKED_ACKED Example.tp0 Example.old_retrans = false
  /\ skb_mstamp Example.old_retrans < rack_mstamp (rack Example.tp0)
  /\ 1000 < rack_mstamp (rack Example.tp0) - skb_mstamp Example.old_retrans
  /\ exists skb2 tp2 mib2,
       fst (tcp_for_write_queue
              (mark_lost_skb TCPCB_SACKED_ACKED TCPCB_SACKED_RETRANS
                 TCPCB_LOST TCPCB_RETRANS 1000)
              (Some 4%nat) 0 (Example.sent ++ [Example.unsent])
              (Example.tp0, 0))
       = skb2 :: fst (tcp_for_write_queue
                        (mark_lost_skb TCPCB_SACKED_ACKED
                           TCPCB_SACKED_RETRANS TCPCB_LOST TCPCB_RETRANS
                           1000)
                        (Some 4%nat) 1
                        [Example.recent; Example.late_retrans;
                         Example.late_orig; Example.unsent]
                        (tp2, mib2))
       /\ Z.land (sacked skb2) TCPCB_LOST = TCPCB_LOST
       /\ Z.land (sacked skb2) TCPCB_SACKED_RETRANS = 0
       /\ retrans_out tp2 = 1
       /\ mib2 = 1.
Proof.
  assert (H0 : Z.land TCPCB_LOST TCPCB_SACKED_RETRANS = 0) by reflexivity.
  assert (H1 : at_send_head (Some 4%nat) 0 = false) by reflexivity.
  assert (H2 : skb_acked TCPCB_SACKED_ACKED Example.tp0 Example.old_retrans
               = false) by reflexivity.
  assert (H3 : skb_mstamp Example.old_retrans < rack_mstamp (rack Example.tp0))
    by reflexivity.
  assert (H4 : 1000 < rack_mstamp (rack Example.tp0)
                      - skb_mstamp Example.old_retrans)
    by reflexivity.
  repeat (split; [assumption |]).
  destruct (C3_mark_lost TCPCB_SACKED_ACKED TCPCB_SACKED_RETRANS TCPCB_LOST
              TCPCB_RETRANS 1000 (Some 4%nat) 0%nat [] Example.old_retrans
              [Example.recent; Example.late_retrans; Example.late_orig;
               Example.unsent]
              Example.tp0 0 [] Example.tp0 0 H0 eq_refl eq_refl H1 H2 H3 H4)
    as (skb2 & tp2 & mib2 & Hw & Hlost & _ & Hre & _).
  assert (H5 : Z.land (sacked Example.old_retrans) TCPCB_SACKED_RETRANS <> 0)
    by (vm_compute; discriminate).
  destruct (Hre H5) as (Hclear & Htp & Hmib).
  exists skb2, tp2, mib2.
  split; [change (Example.sent ++ [Example.unsent])
            with ([] ++ Example.old_retrans
                  :: [Example.recent; Example.late_retrans;
                      Example.late_orig; Example.unsent]);
          rewrite Hw; reflexivity |].
  split; [exact Hlost |]. split; [exact Hclear |].
  split; [rewrite Htp; reflexivity | exact Hmib].
Defined.

Lemma C4_inconclusive_witness :
  (walk_passed
     (mark_lost_skb TCPCB_SACKED_ACKED TCPCB_SACKED_RETRANS TCPCB_LOST
        TCPCB_RETRANS 1000)
     (Some 4%nat) 0 [Example.old_retrans] (Example.tp0, 0)
   = 1%nat
   /\ at_send_head (Some 4%nat) 1 = false
   /\ skb_acked TCPCB_SACKED_ACKED Example.tp0 Example.recent = false
   /\ skb_mstamp Example.recent < rack_mstamp (rack Example.tp0)
   /\ rack_mstamp (rack Example.tp0) - skb_mstamp Example.recent <= 1000
   /\ nth_error
        (fst (tcp_for_write_queue
                (mark_lost_skb TCPCB_SACKED_ACKED TCPCB_SACKED_RETRANS
                   TCPCB_LOST TCPCB_RETRANS 1000)
                (Some 4%nat) 0 (Example.sent ++ [Example.unsent])
                (Example.tp0, 0))) 1
      = Some Example.recent)
  /\ (detect_inconclusive TCPCB_SACKED_ACKED TCPCB_SACKED_RETRANS TCPCB_LOST
        TCPCB_RETRANS Example.sk0 <> []
      /\ exists t,
           snd (rack_detect_loss TCPCB_SACKED_ACKED TCPCB_SACKED_RETRANS
                  TCPCB_LOST TCPCB_RETRANS Example.sk0) = Some t
           /\ t <= remaining 1000 Example.tp0 Example.recent).
Proof.
  pose proof (C4_inconclusive TCPCB_SACKED_ACKED TCPCB_SACKED_RETRANS
                TCPCB_LOST TCPCB_RETRANS) as [Hcode Hstep].
  split.
  - assert (H0 : walk_passed
                   (mark_lost_skb TCPCB_SACKED_ACKED TCPCB_SACKED_RETRANS
                      TCPCB_LOST TCPCB_RETRANS 1000)
                   (Some 4%nat) 0 [Example.old_retrans] (Example.tp0, 0)
                 = length [Example.old_retrans]) by reflexivity.
    assert (H1 : at_send_head (Some 4%nat) 1 = false) by reflexivity.
    assert (H2 : skb_acked TCPCB_SACKED_ACKED
                   (set_retrans_out Example.tp0 1) Example.recent
                 = false) by reflexivity.
    assert (H3 : skb_mstamp Example.recent
                 < rack_mstamp (rack (set_retrans_out Example.tp0 1)))
      by reflexivity.
    assert (H4 : rack_mstamp (rack (set_retrans_out Example.tp0 1))
                 - skb_mstamp Example.recent <= 1000)
      by (vm_compute; discriminate).
    split; [exact H0 |]. split; [exact H1 |]. split; [exact H2 |].
    split; [exact H3 |]. split; [exact H4 |].
    change (Example.sent ++ [Example.unsent])
      with ([Example.old_retrans]
            ++ Example.recent
               :: [Example.late_retrans; Example.late_orig; Example.unsent]).
    rewrite (Hcode 1000 (Some 4%nat) 0%nat [Example.old_retrans]
               Example.recent
               [Example.late_retrans; Example.late_orig; Example.unsent]
               Example.tp0 0 [mk_skb 100 TCPCB_LOST 0 1]
               (set_retrans_out Example.tp0 1) 1 H0 eq_refl H1 H2 H3 H4).
    reflexivity.
  - assert (Hne : detect_inconclusive TCPCB_SACKED_ACKED TCPCB_SACKED_RETRANS
                    TCPCB_LOST TCPCB_RETRANS Example.sk0 <> [])
      by (vm_compute; discriminate).
    split; [exact Hne |].
    destruct (Hstep Example.sk0) as (_ & _ & Hmin).
    destruct (Hmin Hne) as (t & Ht & _ & Hall).
    exists t. split; [exact Ht |].
    apply Hall. vm_compute. left. reflexivity.
Defined.

Lemma C5_reorder_window_witness :
  rack_reord (rack (tcp_sk Example.sk_reord)) = true
  /\ tcp_min_rtt (tcp_sk Example.sk_reord) <> U32_MAX
  /\ rack_reo_wnd (tcp_sk Example.sk_reord)
     = Z.max (tcp_min_rtt (tcp_sk Example.sk_reord) / 4) 1000.
Proof.
  assert (H1 : rack_reord (rack (tcp_sk Example.sk_reord)) = true)
    by reflexivity.
  assert (H2 : tcp_min_rtt (tcp_sk Example.sk_reord) <> U32_MAX)
    by (vm_compute; discriminate).
  repeat (split; [assumption |]).
  exact (proj1 (proj2 (C5_reorder_window TCPCB_SACKED_ACKED
                         TCPCB_SACKED_RETRANS TCPCB_LOST TCPCB_RETRANS
                         TCP_CA_Recovery Example.sk_reord)) H1 H2).
Defined.

Lemma C6_reference_moves_forward_witness :
  (rack_mstamp (rack Example.tp0) <> 0
   /\ ~ rack_mstamp (rack Example.tp0) < 14000
   /\ tcp_rack_advance TCPCB_RETRANS Example.tp0 0 900 14000 14800 800
      = Example.tp0)
  /\ (Forall (fun c => 0 <= ac_xmit_time c)
        [mk_call 0 1100 16000 17000 1000; mk_call 0 1200 15500 17000 1500]
      /\ rack_mstamp (rack Example.tp0)
         <= rack_mstamp
              (rack (advance_calls TCPCB_RETRANS Example.tp0
                       [mk_call 0 1100 16000 17000 1000;
                        mk_call 0 1200 15500 17000 1500]))).
Proof.
  pose proof (C6_reference_moves_forward TCPCB_RETRANS) as [Hone Hseq].
  split.
  - assert (H1 : rack_mstamp (rack Example.tp0) <> 0)
      by (vm_compute; discriminate).
    assert (H2 : ~ rack_mstamp (rack Example.tp0) < 14000)
      by (vm_compute; discriminate).
    repeat (split; [assumption |]).
    exact (Hone Example.tp0 0 900 14000 14800 800 H1 H2).
  - assert (H : Forall (fun c => 0 <= ac_xmit_time c)
                  [mk_call 0 1100 16000 17000 1000;
                   mk_call 0 1200 15500 17000 1500])
      by (repeat constructor; vm_compute; discriminate).
    split; [exact H |].
    exact (Hseq _ Example.tp0 H).
Defined.

Lemma C7_not_advanced_noop_witness :
  rack_advanced (rack (tcp_sk (fst (tcp_rack_mark_lost TCPCB_SACKED_ACKED
                                      TCPCB_SACKED_RETRANS TCPCB_LOST
                                      TCPCB_RETRANS TCP_CA_Recovery
                                      Example.sk0)))) = false
  /\ tcp_rack_mark_lost TCPCB_SACKED_ACKED TCPCB_SACKED_RETRANS TCPCB_LOST
       TCPCB_RETRANS TCP_CA_Recovery
       (fst (tcp_rack_mark_lost TCPCB_SACKED_ACKED TCPCB_SACKED_RETRANS
               TCPCB_LOST TCPCB_RETRANS TCP_CA_Recovery Example.sk0))
     = (fst (tcp_rack_mark_lost TCPCB_SACKED_ACKED TCPCB_SACKED_RETRANS
               TCPCB_LOST TCPCB_RETRANS TCP_CA_Recovery Example.sk0), 0)
  /\ tcp_rack_mark_lost_at ICSK_TIME_REO_TIMEOUT TCP_REO_TIMEOUT_MIN
       usecs_to_jiffies
       (fun (sk : sock) (_ : option Z) =>
         (fst (rack_detect_loss TCPCB_SACKED_ACKED TCPCB_SACKED_RETRANS
                 TCPCB_LOST TCPCB_RETRANS sk),
          Example.stored
            (snd (rack_detect_loss TCPCB_SACKED_ACKED TCPCB_SACKED_RETRANS
                    TCPCB_LOST TCPCB_RETRANS sk))))
       Example.collaborator 17000
       (snd (tcp_rack_mark_lost_at ICSK_TIME_REO_TIMEOUT TCP_REO_TIMEOUT_MIN
               usecs_to_jiffies
               (fun (sk : sock) (_ : option Z) =>
         (fst (rack_detect_loss TCPCB_SACKED_ACKED TCPCB_SACKED_RETRANS
                 TCPCB_LOST TCPCB_RETRANS sk),
          Example.stored
            (snd (rack_detect_loss TCPCB_SACKED_ACKED TCPCB_SACKED_RETRANS
                    TCPCB_LOST TCPCB_RETRANS sk))))
               Example.collaborator 16000 (Example.sk0, [])))
     = (tt,
        snd (tcp_rack_mark_lost_at ICSK_TIME_REO_TIMEOUT TCP_REO_TIMEOUT_MIN
               usecs_to_jiffies
               (fun (sk : sock) (_ : option Z) =>
         (fst (rack_detect_loss TCPCB_SACKED_ACKED TCPCB_SACKED_RETRANS
                 TCPCB_LOST TCPCB_RETRANS sk),
          Example.stored
            (snd (rack_detect_loss TCPCB_SACKED_ACKED TCPCB_SACKED_RETRANS
                    TCPCB_LOST TCPCB_RETRANS sk))))
               Example.collaborator 16000 (Example.sk0, []))).
Proof.
  pose proof (C7_not_advanced_noop TCPCB_SACKED_ACKED TCPCB_SACKED_RETRANS
                TCPCB_LOST TCPCB_RETRANS TCP_CA_Recovery
                ICSK_TIME_REO_TIMEOUT TCP_REO_TIMEOUT_MIN usecs_to_jiffies
                (fun (sk : sock) (_ : option Z) =>
         (fst (rack_detect_loss TCPCB_SACKED_ACKED TCPCB_SACKED_RETRANS
                 TCPCB_LOST TCPCB_RETRANS sk),
          Example.stored
            (snd (rack_detect_loss TCPCB_SACKED_ACKED TCPCB_SACKED_RETRANS
                    TCPCB_LOST TCPCB_RETRANS sk))))
                Example.collaborator) as (Hone & _ & _ & Htwice).
  split; [reflexivity |].
  split; [apply Hone; reflexivity |].
  apply Htwice.
  - intros sk t H. cbn [fst]. rewrite rack_detect_loss_rack. exact H.
  - intros r sk H. destruct r; exact H.
Defined.



Lemma C9_reo_timeout_witness :
  Example.tcp_packets_in_flight
    (tcp_sk (fst (rack_detect_loss TCPCB_SACKED_ACKED TCPCB_SACKED_RETRANS
                    TCPCB_LOST TCPCB_RETRANS Example.sk_disorder)))
  <= Example.tcp_packets_in_flight (tcp_sk Example.sk_disorder)
  /\ snd (snd (tcp_rack_reo_timeout TCP_CA_Recovery ICSK_TIME_RETRANS
                 (fun (sk : sock) (_ : option Z) =>
         (fst (rack_detect_loss TCPCB_SACKED_ACKED TCPCB_SACKED_RETRANS
                 TCPCB_LOST TCPCB_RETRANS sk),
          Example.stored
            (snd (rack_detect_loss TCPCB_SACKED_ACKED TCPCB_SACKED_RETRANS
                    TCPCB_LOST TCPCB_RETRANS sk))))
                 Example.tcp_packets_in_flight Example.collaborator
                 (Example.sk_disorder, [])))
     = [tcp_enter_recovery false; tcp_cwnd_reduction 1 0;
        tcp_xmit_retransmit_queue; tcp_rearm_rto].
Proof.
  assert (H1 : Example.tcp_packets_in_flight
                 (tcp_sk (fst (rack_detect_loss TCPCB_SACKED_ACKED
                                 TCPCB_SACKED_RETRANS TCPCB_LOST
                                 TCPCB_RETRANS Example.sk_disorder)))
               <= Example.tcp_packets_in_flight (tcp_sk Example.sk_disorder))
    by (vm_compute; discriminate).
  split; [exact H1 |].
  rewrite (C9_reo_timeout TCP_CA_Recovery ICSK_TIME_RETRANS
             (fun (sk : sock) (_ : option Z) =>
         (fst (rack_detect_loss TCPCB_SACKED_ACKED TCPCB_SACKED_RETRANS
                 TCPCB_LOST TCPCB_RETRANS sk),
          Example.stored
            (snd (rack_detect_loss TCPCB_SACKED_ACKED TCPCB_SACKED_RETRANS
                    TCPCB_LOST TCPCB_RETRANS sk))))
             Example.tcp_packets_in_flight Example.collaborator
             Example.sk_disorder [] _ _ eq_refl H1 _ _ eq_refl eq_refl).
  reflexivity.
Defined.

Lemma C10_send_head_witness :
  sk_send_head Example.sk0 = Some (length Example.sent)
  /\ sk_write_queue Example.sk0 = Example.sent ++ [Example.unsent]
  /\ exists pre',
       sk_write_queue
         (fst (tcp_rack_mark_lost TCPCB_SACKED_ACKED TCPCB_SACKED_RETRANS
                 TCPCB_LOST TCPCB_RETRANS TCP_CA_Recovery Example.sk0))
       = pre' ++ [Example.unsent].
Proof.
  assert (H1 : sk_send_head Example.sk0 = Some (length Example.sent))
    by reflexivity.
  assert (H2 : sk_write_queue Example.sk0 = Example.sent ++ [Example.unsent])
    by reflexivity.
  split; [exact H1 |]. split; [exact H2 |].
  destruct (C10_send_head TCPCB_SACKED_ACKED TCPCB_SACKED_RETRANS TCPCB_LOST
              TCPCB_RETRANS TCP_CA_Recovery Example.sk0 Example.sent
              [Example.unsent] H1 H2) as (pre' & _ & Hq & _).
  exists pre'. exact Hq.
Defined.

(** ** The scenarios of the scan *)

(** An original sent at or after the reference time ends the scan: the
    segment behind it is not marked, whatever its send time. *)
Example scan_stops_at_late_original :
  sk_write_queue
    (fst (tcp_rack_mark_lost TCPCB_SACKED_ACKED TCPCB_SACKED_RETRANS
            TCPCB_LOST TCPCB_RETRANS TCP_CA_Recovery
            (set_write_queue Example.sk0
               [mk_skb 100 0 0 1; mk_skb 200 0 16000 1; mk_skb 300 0 0 1])))
  = [mk_skb 100 TCPCB_LOST 0 1; mk_skb 200 0 16000 1; mk_skb 300 0 0 1].
Proof. reflexivity. Qed.

(** A retransmission sent at or after the reference time does not: the
    segment behind it is reached and marked. *)
Example scan_passes_late_retransmission :
  sk_write_queue
    (fst (tcp_rack_mark_lost TCPCB_SACKED_ACKED TCPCB_SACKED_RETRANS
            TCPCB_LOST TCPCB_RETRANS TCP_CA_Recovery
            (set_write_queue Example.sk0
               [mk_skb 100 0 0 1; mk_skb 200 2 25000 1; mk_skb 300 0 0 1])))
  = [mk_skb 100 TCPCB_LOST 0 1; mk_skb 200 2 25000 1;
     mk_skb 300 TCPCB_LOST 0 1].
Proof. reflexivity. Qed.

(** ** The further properties on the concrete connection *)

Lemma X2_reference_is_latest_send_time_witness :
  0 <= rack_mstamp (rack (tcp_sk Example.sk_reord))
  /\ Forall (fun c =>
               0 < ac_xmit_time c
               /\ (Z.land (ac_sacked c) TCPCB_RETRANS = 0
                   \/ tcp_min_rtt (tcp_sk Example.sk_reord)
                      <= skb_mstamp_us_delta (ac_now c) (ac_xmit_time c)))
       [mk_call 0 1100 16000 17000 1000; mk_call 2 1200 15500 60000 44500]
  /\ rack_mstamp
       (rack (advance_calls TCPCB_RETRANS (tcp_sk Example.sk_reord)
                [mk_call 0 1100 16000 17000 1000;
                 mk_call 2 1200 15500 60000 44500]))
     = 16000.
Proof.
  assert (H0 : 0 <= rack_mstamp (rack (tcp_sk Example.sk_reord)))
    by (vm_compute; discriminate).
  assert (H1 : Forall (fun c =>
                 0 < ac_xmit_time c
                 /\ (Z.land (ac_sacked c) TCPCB_RETRANS = 0
                     \/ tcp_min_rtt (tcp_sk Example.sk_reord)
                        <= skb_mstamp_us_delta (ac_now c) (ac_xmit_time c)))
               [mk_call 0 1100 16000 17000 1000;
                mk_call 2 1200 15500 60000 44500]).
  { constructor; [split; [reflexivity | left; reflexivity] |].
    constructor; [split; [reflexivity | right; vm_compute; discriminate] |].
    constructor. }
  split; [exact H0 |]. split; [exact H1 |].
  rewrite (X2_reference_is_latest_send_time TCPCB_RETRANS _
             (tcp_sk Example.sk_reord) H0 H1).
  reflexivity.
Defined.

Lemma X3_advance_raises_flag_witness :
  rack (advance_calls TCPCB_RETRANS (clear_advanced Example.tp0)
          [mk_call 0 1100 16000 17000 1000])
  <> rack (clear_advanced Example.tp0)
  /\ rack_advanced
       (rack (advance_calls TCPCB_RETRANS (clear_advanced Example.tp0)
                [mk_call 0 1100 16000 17000 1000]))
     = true.
Proof.
  assert (H : rack (advance_calls TCPCB_RETRANS (clear_advanced Example.tp0)
                      [mk_call 0 1100 16000 17000 1000])
              <> rack (clear_advanced Example.tp0))
    by (vm_compute; discriminate).
  split; [exact H |].
  exact (proj2 (proj2 (X3_advance_raises_flag TCPCB_RETRANS
                         [mk_call 0 1100 16000 17000 1000]
                         (clear_advanced Example.tp0))) H).
Defined.

Lemma X5_changed_only_if_expired_witness :
  nth_error (sk_write_queue Example.sk0) 0 = Some Example.old_retrans
  /\ nth_error
       (sk_write_queue
          (fst (tcp_rack_mark_lost TCPCB_SACKED_ACKED TCPCB_SACKED_RETRANS TCPCB_LOST
          TCPCB_RETRANS TCP_CA_Recovery Example.sk0))) 0
     = Some (mk_skb 100 TCPCB_LOST 0 1)
  /\ mk_skb 100 TCPCB_LOST 0 1 <> Example.old_retrans
  /\ expired TCPCB_SACKED_ACKED (rack_reo_wnd (tcp_sk Example.sk0))
       (tcp_sk Example.sk0) Example.old_retrans = true.
Proof.
  assert (H1 : nth_error (sk_write_queue Example.sk0) 0
               = Some Example.old_retrans) by reflexivity.
  assert (H2 : nth_error
                 (sk_write_queue
                    (fst (tcp_rack_mark_lost TCPCB_SACKED_ACKED TCPCB_SACKED_RETRANS TCPCB_LOST
          TCPCB_RETRANS TCP_CA_Recovery Example.sk0))) 0
               = Some (mk_skb 100 TCPCB_LOST 0 1)) by reflexivity.
  assert (H3 : mk_skb 100 TCPCB_LOST 0 1 <> Example.old_retrans)
    by (vm_compute; discriminate).
  split; [exact H1 |]. split; [exact H2 |]. split; [exact H3 |].
  exact (proj1 (proj2 (proj2 (proj2
           (X5_changed_only_if_expired TCPCB_SACKED_ACKED
              TCPCB_SACKED_RETRANS TCPCB_LOST TCPCB_RETRANS TCP_CA_Recovery
              Example.sk0 0%nat _ _ H1 H2 H3))))).
Defined.

Lemma X6_expired_is_marked_witness :
  Z.land TCPCB_LOST TCPCB_SACKED_RETRANS = 0
  /\ (icsk_ca_state Example.sk0 <? TCP_CA_Recovery) = false
  /\ rack_advanced (rack (tcp_sk Example.sk0)) = true
  /\ expired TCPCB_SACKED_ACKED (rack_reo_wnd (tcp_sk Example.sk0))
       (tcp_sk Example.sk0) (mk_skb 200 2 5000 1) = true
  /\ exists b,
       nth_error
         (sk_write_queue
            (fst (tcp_rack_mark_lost TCPCB_SACKED_ACKED TCPCB_SACKED_RETRANS TCPCB_LOST
          TCPCB_RETRANS TCP_CA_Recovery
                    (set_write_queue Example.sk0
                       [mk_skb 100 0 0 1; mk_skb 200 2 5000 1;
                        mk_skb 300 0 20000 1])))) 1
       = Some b
       /\ Z.land (sacked b) TCPCB_LOST = TCPCB_LOST.
Proof.
  assert (H0 : Z.land TCPCB_LOST TCPCB_SACKED_RETRANS = 0) by reflexivity.
  assert (H1 : (icsk_ca_state Example.sk0 <? TCP_CA_Recovery) = false)
    by reflexivity.
  assert (H2 : rack_advanced (rack (tcp_sk Example.sk0)) = true)
    by reflexivity.
  assert (H3 : expired TCPCB_SACKED_ACKED (rack_reo_wnd (tcp_sk Example.sk0))
                 (tcp_sk Example.sk0) (mk_skb 200 2 5000 1) = true)
    by reflexivity.
  repeat (split; [assumption |]).
  destruct (X6_expired_is_marked TCPCB_SACKED_ACKED TCPCB_SACKED_RETRANS
              TCPCB_LOST TCPCB_RETRANS TCP_CA_Recovery
              (set_write_queue Example.sk0
                 [mk_skb 100 0 0 1; mk_skb 200 2 5000 1;
                  mk_skb 300 0 20000 1])
              1%nat (mk_skb 200 2 5000 1) H0 H1 H2)
    as (b & Hb & _ & Hl & _).
  - intros h Hh. injection Hh as <-. lia.
  - reflexivity.
  - exact H3.
  - intros j b Hj Hb. destruct j as [| j]; [| lia].
    injection Hb as <-. vm_compute. discriminate.
  - exists b. split; [exact Hb | exact Hl].
Defined.

Lemma X7_result_counts_void_retransmissions_witness :
  (icsk_ca_state Example.sk0 <? TCP_CA_Recovery) = false
  /\ rack_advanced (rack (tcp_sk Example.sk0)) = true
  /\ snd (tcp_rack_mark_lost TCPCB_SACKED_ACKED TCPCB_SACKED_RETRANS TCPCB_LOST
          TCPCB_RETRANS TCP_CA_Recovery Example.sk0) = 1
  /\ mib_lostretransmit
       (fst (tcp_rack_mark_lost TCPCB_SACKED_ACKED TCPCB_SACKED_RETRANS TCPCB_LOST
          TCPCB_RETRANS TCP_CA_Recovery Example.sk0)) = 1.
Proof.
  assert (H1 : (icsk_ca_state Example.sk0 <? TCP_CA_Recovery) = false)
    by reflexivity.
  assert (H2 : rack_advanced (rack (tcp_sk Example.sk0)) = true)
    by reflexivity.
  split; [exact H1 |]. split; [exact H2 |].
  destruct (X7_result_counts_void_retransmissions TCPCB_SACKED_ACKED
              TCPCB_SACKED_RETRANS TCPCB_LOST TCPCB_RETRANS TCP_CA_Recovery
              Example.sk0 H1 H2) as [Hr Hm].
  split; [rewrite Hr | rewrite Hm]; reflexivity.
Defined.

Lemma X8_rescan_is_noop_witness :
  Z.land TCPCB_LOST TCPCB_SACKED_RETRANS = 0
  /\ Z.land TCPCB_LOST TCPCB_SACKED_ACKED = 0
  /\ (icsk_ca_state Example.sk0 <? TCP_CA_Recovery) = false
  /\ rack_advanced (rack (tcp_sk Example.sk0)) = true
  /\ tcp_rack_mark_lost TCPCB_SACKED_ACKED TCPCB_SACKED_RETRANS TCPCB_LOST
          TCPCB_RETRANS TCP_CA_Recovery
       (set_tcp_sk
          (fst (tcp_rack_mark_lost TCPCB_SACKED_ACKED TCPCB_SACKED_RETRANS TCPCB_LOST
          TCPCB_RETRANS TCP_CA_Recovery Example.sk0))
          (set_advanced
             (tcp_sk
                (fst (tcp_rack_mark_lost TCPCB_SACKED_ACKED TCPCB_SACKED_RETRANS TCPCB_LOST
          TCPCB_RETRANS TCP_CA_Recovery Example.sk0)))))
     = (fst (tcp_rack_mark_lost TCPCB_SACKED_ACKED TCPCB_SACKED_RETRANS TCPCB_LOST
          TCPCB_RETRANS TCP_CA_Recovery Example.sk0), 0).
Proof.
  repeat (split; [reflexivity |]).
  apply X8_rescan_is_noop; reflexivity.
Defined.

Lemma X9_flags_kept_witness :
  Z.land TCPCB_LOST TCPCB_SACKED_RETRANS = 0
  /\ nth_error (sk_write_queue Example.sk0) 0 = Some Example.old_retrans
  /\ nth_error
       (sk_write_queue
          (fst (tcp_rack_mark_lost TCPCB_SACKED_ACKED TCPCB_SACKED_RETRANS TCPCB_LOST
          TCPCB_RETRANS TCP_CA_Recovery Example.sk0))) 0
     = Some (mk_skb 100 TCPCB_LOST 0 1)
  /\ Z.land (sacked (mk_skb 100 TCPCB_LOST 0 1))
            (Z.lnot (Z.lor TCPCB_LOST TCPCB_SACKED_RETRANS))
     = Z.land (sacked Example.old_retrans)
              (Z.lnot (Z.lor TCPCB_LOST TCPCB_SACKED_RETRANS)).
Proof.
  assert (H0 : Z.land TCPCB_LOST TCPCB_SACKED_RETRANS = 0) by reflexivity.
  assert (H1 : nth_error (sk_write_queue Example.sk0) 0
               = Some Example.old_retrans) by reflexivity.
  assert (H2 : nth_error
                 (sk_write_queue
                    (fst (tcp_rack_mark_lost TCPCB_SACKED_ACKED TCPCB_SACKED_RETRANS TCPCB_LOST
          TCPCB_RETRANS TCP_CA_Recovery Example.sk0))) 0
               = Some (mk_skb 100 TCPCB_LOST 0 1)) by reflexivity.
  split; [exact H0 |]. split; [exact H1 |]. split; [exact H2 |].
  exact (proj1 (X9_flags_kept TCPCB_SACKED_ACKED TCPCB_SACKED_RETRANS
                  TCPCB_LOST TCPCB_RETRANS TCP_CA_Recovery Example.sk0 0%nat
                  _ _ H0 H1 H2)).
Defined.

Lemma X11_requests_on_any_change_witness :
  In (tcp_cwnd_reduction 1 0)
     (snd (snd (tcp_rack_reo_timeout TCP_CA_Recovery ICSK_TIME_RETRANS
                  (fun (sk : sock) (_ : option Z) =>
         (fst (rack_detect_loss TCPCB_SACKED_ACKED TCPCB_SACKED_RETRANS
                 TCPCB_LOST TCPCB_RETRANS sk),
          Example.stored
            (snd (rack_detect_loss TCPCB_SACKED_ACKED TCPCB_SACKED_RETRANS
                    TCPCB_LOST TCPCB_RETRANS sk))))
                  Example.tcp_packets_in_flight Example.collaborator
                  (Example.sk_disorder, []))))
  /\ In (tcp_enter_recovery false)
        (snd (snd (tcp_rack_reo_timeout TCP_CA_Recovery ICSK_TIME_RETRANS
                     (fun (sk : sock) (_ : option Z) =>
         (fst (rack_detect_loss TCPCB_SACKED_ACKED TCPCB_SACKED_RETRANS
                 TCPCB_LOST TCPCB_RETRANS sk),
          Example.stored
            (snd (rack_detect_loss TCPCB_SACKED_ACKED TCPCB_SACKED_RETRANS
                    TCPCB_LOST TCPCB_RETRANS sk))))
                     Example.tcp_packets_in_flight Example.collaborator
                     (Example.sk_disorder, [])))).
Proof.
  assert (H : In (tcp_cwnd_reduction 1 0)
                (snd (snd (tcp_rack_reo_timeout TCP_CA_Recovery
                             ICSK_TIME_RETRANS
                             (fun (sk : sock) (_ : option Z) =>
         (fst (rack_detect_loss TCPCB_SACKED_ACKED TCPCB_SACKED_RETRANS
                 TCPCB_LOST TCPCB_RETRANS sk),
          Example.stored
            (snd (rack_detect_loss TCPCB_SACKED_ACKED TCPCB_SACKED_RETRANS
                    TCPCB_LOST TCPCB_RETRANS sk))))
                             Example.tcp_packets_in_flight
                             Example.collaborator
                             (Example.sk_disorder, [])))))
    by (vm_compute; auto).
  split; [exact H |].
  exact (proj1 (proj2 (proj2 (proj2
           (X11_requests_on_any_change TCP_CA_Recovery ICSK_TIME_RETRANS
              (fun (sk : sock) (_ : option Z) =>
         (fst (rack_detect_loss TCPCB_SACKED_ACKED TCPCB_SACKED_RETRANS
                 TCPCB_LOST TCPCB_RETRANS sk),
          Example.stored
            (snd (rack_detect_loss TCPCB_SACKED_ACKED TCPCB_SACKED_RETRANS
                    TCPCB_LOST TCPCB_RETRANS sk))))
              Example.tcp_packets_in_flight Example.collaborator
              Example.sk_disorder)) 1 0 H))).
Defined.

Lemma X12_reorder_window_range_witness :
  0 <= tcp_min_rtt (tcp_sk Example.sk_reord) < 2 ^ 32
  /\ 1000 <= rack_reo_wnd (tcp_sk Example.sk_reord) < 2 ^ 30.
Proof.
  assert (H : 0 <= tcp_min_rtt (tcp_sk Example.sk_reord) < 2 ^ 32)
    by (vm_compute; split; [discriminate | reflexivity]).
  split; [exact H |].
  exact (proj1 (X12_reorder_window_range (tcp_sk Example.sk_reord) H)).
Defined.

Lemma X13_retrans_out_in_step_witness :
  Z.land TCPCB_LOST TCPCB_SACKED_RETRANS = 0
  /\ Forall (fun skb => 0 <= tcp_skb_pcount skb)
       (sk_write_queue Example.sk0)
  /\ retrans_out (tcp_sk Example.sk0)
     = retrans_packets TCPCB_SACKED_RETRANS (sk_write_queue Example.sk0)
  /\ retrans_out (tcp_sk Example.sk0) < 2 ^ 31
  /\ retrans_out
       (tcp_sk (fst (tcp_rack_mark_lost TCPCB_SACKED_ACKED
                       TCPCB_SACKED_RETRANS TCPCB_LOST TCPCB_RETRANS
                       TCP_CA_Recovery Example.sk0)))
     = retrans_packets TCPCB_SACKED_RETRANS
         (sk_write_queue
            (fst (tcp_rack_mark_lost TCPCB_SACKED_ACKED TCPCB_SACKED_RETRANS
                    TCPCB_LOST TCPCB_RETRANS TCP_CA_Recovery Example.sk0))).
Proof.
  assert (H0 : Z.land TCPCB_LOST TCPCB_SACKED_RETRANS = 0) by reflexivity.
  assert (H1 : Forall (fun skb => 0 <= tcp_skb_pcount skb)
                 (sk_write_queue Example.sk0))
    by (repeat constructor; vm_compute; discriminate).
  assert (H2 : retrans_out (tcp_sk Example.sk0)
               = retrans_packets TCPCB_SACKED_RETRANS
                   (sk_write_queue Example.sk0)) by reflexivity.
  assert (H3 : retrans_out (tcp_sk Example.sk0) < 2 ^ 31) by reflexivity.
  repeat (split; [assumption |]).
  exact (proj1 (X13_retrans_out_in_step TCPCB_SACKED_ACKED
                  TCPCB_SACKED_RETRANS TCPCB_LOST TCPCB_RETRANS
                  TCP_CA_Recovery Example.sk0 H0 H1 H2 H3)).
Defined.

Lemma X1_repeat_after_accept_witness :
  (16000 <> 0 \/ 40001 = 40000)
  /\ tcp_rack_advance TCPCB_RETRANS (tcp_sk Example.sk_reord) 2 1200 16000
       56000 40000
     <> tcp_sk Example.sk_reord
  /\ tcp_rack_advance TCPCB_RETRANS
       (tcp_rack_advance TCPCB_RETRANS (tcp_sk Example.sk_reord) 2 1200
          16000 56000 40000)
       2 1200 16000 56001 40001
     = tcp_rack_advance TCPCB_RETRANS (tcp_sk Example.sk_reord) 2 1200 16000
         56000 40000.
Proof.
  assert (H1 : 16000 <> 0 \/ 40001 = 40000) by (left; discriminate).
  assert (H2 : tcp_rack_advance TCPCB_RETRANS (tcp_sk Example.sk_reord) 2
                 1200 16000 56000 40000
               <> tcp_sk Example.sk_reord)
    by (vm_compute; discriminate).
  split; [exact H1 |]. split; [exact H2 |].
  exact (proj1 (X1_repeat_after_accept TCPCB_RETRANS
                  (tcp_sk Example.sk_reord) 2 1200 16000 56000 40000 56001
                  40001) H1 H2).
Defined.
